(** * The URL phishing-risk scorer of the UrlChecker component

    A shallow embedding of [analyzeUrl] and [isLegitimateUse] (component
    [UrlChecker]) together with the properties of the scorer.

    Conventions of the embedding:
    - a JavaScript string is a [string]; the string methods the scorer
      calls ([startsWith], [endsWith], [includes], [split], [toLowerCase])
      are defined below, with the receiver as first argument;
    - a JavaScript number is a [Z]: the scorer only adds the weights
      15, 20, 25, 30, 35 and 40 a bounded number of times and takes a
      minimum, which is exact on doubles;
    - the local variables [riskScore] and [reasons], which the rules update
      in place, are threaded through the rules as a record [Locals];
    - the [try { ... } catch] block is a computation in the [Completion]
      monad: it either completes normally with a value or throws;
    - [new URL(...)] is the platform's URL constructor, not code of the
      component: the scorer is parameterised by it. *)

From Stdlib Require Import ZArith List Bool Ascii String Lia.
Import ListNotations.

Open Scope string_scope.
Open Scope list_scope.
Open Scope Z_scope.

(** ** JavaScript string methods *)

Module Js.

(** [s.startsWith(p)] *)
Definition startsWith (s p : string) : bool := String.prefix p s.

(** [s.includes(p)]: [p] occurs in [s] at some position. *)
Fixpoint includes (s p : string) : bool :=
  String.prefix p s
  || match s with
     | EmptyString => false
     | String _ s' => includes s' p
     end.

(** [s.endsWith(p)]: the last [length p] characters of [s] are [p]. *)
Definition endsWith (s p : string) : bool :=
  let n := String.length s in
  let m := String.length p in
  (m <=? n)%nat && String.eqb (String.substring (n - m) m s) p.

Definition lowerChar (c : ascii) : ascii :=
  let n := nat_of_ascii c in
  if ((65 <=? n) && (n <=? 90))%nat then ascii_of_nat (n + 32) else c.

(** [s.toLowerCase()].  The scorer lowercases the host name and the path
    of a parsed URL, which are ASCII: only the letters A-Z change. *)
Fixpoint toLowerCase (s : string) : string :=
  match s with
  | EmptyString => EmptyString
  | String c s' => String (lowerChar c) (toLowerCase s')
  end.

(** [split_from sep skip cur s] scans [s]; [cur] is the segment being
    built and [skip] the number of characters of a separator occurrence
    that are still to be passed over. *)
Fixpoint split_from (sep : string) (skip : nat) (cur s : string)
  : list string :=
  match s with
  | EmptyString => [cur]
  | String c s' =>
      match skip with
      | S k => split_from sep k cur s'
      | O =>
          if String.prefix sep s
          then cur :: split_from sep (String.length sep - 1) "" s'
          else split_from sep 0 (cur ++ String c "") s'
      end
  end.

(** [s.split(sep)]: the segments of [s] between the occurrences of [sep],
    found from left to right; an empty separator cuts [s] into its
    characters. *)
Definition split (s sep : string) : list string :=
  match sep with
  | EmptyString => map (fun c => String c "") (list_ascii_of_string s)
  | _ => split_from sep 0 "" s
  end.

(** [xs.some(p)] *)
Definition some {A : Type} (xs : list A) (p : A -> bool) : bool :=
  existsb p xs.

End Js.

(** ** The regular expression [/^\d+\.\d+\.\d+\.\d+/] *)

Module Regex.

Definition isDigit (c : ascii) : bool :=
  let n := nat_of_ascii c in ((48 <=? n) && (n <=? 57))%nat.

Fixpoint dropDigits (s : string) : string :=
  match s with
  | EmptyString => EmptyString
  | String c s' => if isDigit c then dropDigits s' else s
  end.

(** [\d+]: one digit or more; the rest of the string is returned. *)
Definition digits (s : string) : option string :=
  match s with
  | EmptyString => None
  | String c s' => if isDigit c then Some (dropDigits s') else None
  end.

(** [\.]: a literal dot. *)
Definition dot (s : string) : option string :=
  match s with
  | String "."%char s' => Some s'
  | _ => None
  end.

Definition andThen (r : option string) (m : string -> option string)
  : option string :=
  match r with
  | Some s => m s
  | None => None
  end.

(** [/^\d+\.\d+\.\d+\.\d+/.test(s)].  Each [\d+] is followed by a dot or
    by the end of the pattern, so the longest run of digits is the only
    one that can lead to a match and no backtracking is needed. *)
Definition dottedQuadPrefix (s : string) : bool :=
  match
    andThen (andThen (andThen (andThen (andThen (andThen (digits s)
      dot) digits) dot) digits) dot) digits
  with
  | Some _ => true
  | None => false
  end.

End Regex.

(** ** Completions: the result of evaluating a block that may throw *)

Inductive Completion (A : Type) : Type :=
| Normal (a : A)
| Throw.

Arguments Normal {A} a.
Arguments Throw {A}.

Definition bind {A B : Type} (c : Completion A) (k : A -> Completion B)
  : Completion B :=
  match c with
  | Normal a => k a
  | Throw => Throw
  end.

(** [try { body } catch (error) { handler }]; the handlers of the scorer
    do not look at the error. *)
Definition try_catch {A : Type} (body handler : Completion A)
  : Completion A :=
  match body with
  | Normal a => Normal a
  | Throw => handler
  end.

(** ** Data model *)

Inductive Status : Type := safe | suspicious | dangerous.

Record UrlCheckResult : Type := {
  status : Status;
  score : Z;
  reasons : list string
}.

(** The two fields of a URL object that the scorer reads. *)
Record URL : Type := {
  hostname : string;
  pathname : string
}.

(** The local variables [riskScore] and [reasons] of [analyzeUrl];
    [pushed] is the content of the array [reasons]. *)
Record Locals : Type := {
  riskScore : Z;
  pushed : list string
}.

(** ** Constant tables *)

Definition suspiciousKeywords : list string :=
  [ "login"; "verify"; "update"; "urgent"; "suspend"; "confirm"; "security";
    "paypal"; "amazon"; "netflix"; "microsoft"; "google"; "facebook";
    "bank"; "secure"; "account"; "expired"; "limited"; "restricted" ].

Definition shorteners : list string :=
  [ "bit.ly"; "tinyurl.com"; "t.co"; "short.link"; "tiny.cc" ].

Definition commonBrands : list string :=
  [ "paypal"; "amazon"; "microsoft"; "google"; "apple"; "netflix" ].

Definition legitimateDomains : list string :=
  [ "login.microsoftonline.com"; "accounts.google.com";
    "secure.paypal.com"; "login.live.com" ].

(** ** The scorer *)

(** [isLegitimateUse(domain, keyword)]; the keyword is not looked at. *)
Definition isLegitimateUse (domain keyword : string) : bool :=
  Js.some legitimateDomains (fun legit => Js.includes domain legit).

Definition init : Locals := {| riskScore := 0; pushed := [] |}.

(** [riskScore += w; reasons.push(r)] *)
Definition fire (w : Z) (r : string) (st : Locals) : Locals :=
  {| riskScore := riskScore st + w; pushed := pushed st ++ [r] |}.

(** [if (b) { ... }] without [else] *)
Definition when (b : bool) (f : Locals -> Locals) (st : Locals) : Locals :=
  if b then f st else st.

(** The condition of the brand rule. *)
Definition impersonates (domain brand : string) : bool :=
  Js.includes domain brand
  && negb (Js.endsWith domain (brand ++ ".com"))
  && negb (Js.endsWith domain (brand ++ ".net")).

(** The body of the [forEach] over [commonBrands]. *)
Definition brandRule (domain : string) (st : Locals) (brand : string)
  : Locals :=
  when (impersonates domain brand)
       (fire 40 ("Potentially impersonating " ++ brand)) st.

(** [urlToCheck]: the input, with [https://] in front when it has no
    scheme prefix. *)
Definition normalize (inputUrl : string) : string :=
  if negb (Js.startsWith inputUrl "http://")
     && negb (Js.startsWith inputUrl "https://")
  then "https://" ++ inputUrl
  else inputUrl.

(** The eight rules, in the order of the code, from the parsed URL. *)
Definition rules (urlToCheck : string) (urlObj : URL) : Locals :=
  let domain := Js.toLowerCase (hostname urlObj) in
  let path := Js.toLowerCase (pathname urlObj) in
  let st := init in
  let domainSuspicious :=
    Js.some suspiciousKeywords (fun keyword =>
      Js.includes domain keyword && negb (isLegitimateUse domain keyword)) in
  let st := when domainSuspicious
              (fire 30 "Domain contains suspicious keywords") st in
  let pathSuspicious :=
    Js.some suspiciousKeywords (fun keyword => Js.includes path keyword) in
  let st := when pathSuspicious
              (fire 20 "URL path contains phishing-related terms") st in
  let st := when (Js.some shorteners (fun shortener =>
                    Js.includes domain shortener))
              (fire 25 "Uses URL shortening service") st in
  let st := when (Js.includes domain "-"
                  && (3 <? Z.of_nat (List.length (Js.split domain "-"))))
              (fire 15 "Domain has suspicious hyphen pattern") st in
  let st := fold_left (brandRule domain) commonBrands st in
  let st := when (Regex.dottedQuadPrefix domain)
              (fire 35 "Uses IP address instead of domain name") st in
  let subdomains := Js.split domain "." in
  let st := when (4 <? Z.of_nat (List.length subdomains))
              (fire 20 "Excessive subdomains detected") st in
  let st := when (Js.startsWith urlToCheck "http://")
              (fire 15 "Not using secure HTTPS connection") st in
  st.

(** The classification and the returned object. *)
Definition classify (st : Locals) : UrlCheckResult :=
  if 50 <=? riskScore st then
    {| status := dangerous;
       score := Z.min (riskScore st) 100;
       reasons := "High risk of phishing" :: pushed st |}
  else if 25 <=? riskScore st then
    {| status := suspicious;
       score := Z.min (riskScore st) 100;
       reasons := "Potential security concerns" :: pushed st |}
  else
    {| status := safe;
       score := Z.min (riskScore st) 100;
       reasons := if (List.length (pushed st) =? 0)%nat
                  then pushed st ++ ["No obvious red flags detected"]
                  else pushed st |}.

(** The object returned by the [catch] branch. *)
Definition fallback : UrlCheckResult :=
  {| status := suspicious;
     score := 30;
     reasons := ["Invalid URL format"; "Could not properly analyze URL"] |}.

Section Scorer.

(** [new URL(s)]: the parsed URL, or a thrown [TypeError]. *)
Variable newURL : string -> Completion URL.

(** The [try] block of [analyzeUrl]. *)
Definition tryBlock (inputUrl : string) : Completion UrlCheckResult :=
  let urlToCheck := normalize inputUrl in
  bind (newURL urlToCheck) (fun urlObj =>
    Normal (classify (rules urlToCheck urlObj))).

(** [analyzeUrl(inputUrl)] as the code evaluates it. *)
Definition analyzeUrl (inputUrl : string) : Completion UrlCheckResult :=
  try_catch (tryBlock inputUrl) (Normal fallback).

(** The value [analyzeUrl] returns: the scorer as a function (the
    [analyze] of the specification). *)
Definition analyze (inputUrl : string) : UrlCheckResult :=
  match newURL (normalize inputUrl) with
  | Normal urlObj => classify (rules (normalize inputUrl) urlObj)
  | Throw => fallback
  end.

End Scorer.

(** ** A reference URL parser

    A model of the platform's URL constructor on the strings the scorer
    passes to it, which start with [http://] or [https://]: the authority
    runs up to the first slash, backslash, question mark or hash; user
    information and port are removed from it; the host is lowercased and
    must be non-empty and free of forbidden characters; the path runs up to
    the query or fragment and is [/] when absent.  Percent-encoding,
    dot-segment removal, internationalised and bracketed hosts and the
    numeric forms of IPv4 addresses are left out.  It instantiates the
    parameter of the scorer on concrete inputs. *)

Module UrlModel.

(** The prefix of [s] before the first character satisfying [stop], and
    the rest of [s] from that character on. *)
Fixpoint break (stop : ascii -> bool) (s : string) : string * string :=
  match s with
  | EmptyString => (EmptyString, EmptyString)
  | String c s' =>
      if stop c then (EmptyString, s)
      else let (a, b) := break stop s' in (String c a, b)
  end.

Fixpoint dropWhile (p : ascii -> bool) (s : string) : string :=
  match s with
  | EmptyString => EmptyString
  | String c s' => if p c then dropWhile p s' else s
  end.

Fixpoint allChars (p : ascii -> bool) (s : string) : bool :=
  match s with
  | EmptyString => true
  | String c s' => p c && allChars p s'
  end.

Definition oneOf (cs : string) (c : ascii) : bool :=
  existsb (Ascii.eqb c) (list_ascii_of_string cs).

(** The part of the authority after its last [@]. *)
Fixpoint afterLastAt (s : string) : string :=
  match s with
  | EmptyString => EmptyString
  | String c s' =>
      if Ascii.eqb c "@" && Js.includes s' "@" then afterLastAt s'
      else if Ascii.eqb c "@" then s'
      else if Js.includes s' "@" then afterLastAt s'
      else s
  end.

Definition hostChar (c : ascii) : bool :=
  let n := nat_of_ascii c in
  ((32 <? n) && (n <? 127))%nat && negb (oneOf "#/:<>?@[\]^|%" c).

Definition afterScheme (s : string) : Completion string :=
  if Js.startsWith s "https://" then
    Normal (String.substring 8 (String.length s - 8) s)
  else if Js.startsWith s "http://" then
    Normal (String.substring 7 (String.length s - 7) s)
  else Throw.

Definition parse (s : string) : Completion URL :=
  bind (afterScheme s) (fun rest =>
    let rest := dropWhile (oneOf "/\") rest in
    let (authority, tail) := break (oneOf "/\?#") rest in
    let (host, port) := break (oneOf ":") (afterLastAt authority) in
    let portDigits := String.substring 1 (String.length port - 1) port in
    let (p, _) := break (oneOf "?#") tail in
    if (String.length host =? 0)%nat
       || negb (allChars hostChar host)
       || negb (allChars Regex.isDigit portDigits)
    then Throw
    else Normal {| hostname := Js.toLowerCase host;
                   pathname := if (String.length p =? 0)%nat
                               then "/" else p |}).

End UrlModel.

(** ** The rules as a table

    A rule is a condition, a weight and a reason.  Running a table of rules
    adds the weight and pushes the reason of each rule whose condition
    holds, in the order of the table. *)

Definition Rule : Type := bool * (Z * string).

Definition holds (e : Rule) : bool := fst e.
Definition weightOf (e : Rule) : Z := fst (snd e).
Definition reasonOf (e : Rule) : string := snd (snd e).

Definition runRule (st : Locals) (e : Rule) : Locals :=
  when (holds e) (fire (weightOf e) (reasonOf e)) st.

Definition fired (t : list Rule) : list Rule := filter holds t.

Definition totalWeight (t : list Rule) : Z :=
  fold_right (fun e acc => weightOf e + acc) 0 t.

Definition impersonation (brand : string) : string :=
  "Potentially impersonating " ++ brand.

(** The four rules evaluated before the brand rule. *)
Definition rulesBefore (urlToCheck : string) (urlObj : URL) : list Rule :=
  let domain := Js.toLowerCase (hostname urlObj) in
  let path := Js.toLowerCase (pathname urlObj) in
  [ (Js.some suspiciousKeywords (fun keyword =>
       Js.includes domain keyword && negb (isLegitimateUse domain keyword)),
     (30, "Domain contains suspicious keywords"));
    (Js.some suspiciousKeywords (fun keyword => Js.includes path keyword),
     (20, "URL path contains phishing-related terms"));
    (Js.some shorteners (fun shortener => Js.includes domain shortener),
     (25, "Uses URL shortening service"));
    (Js.includes domain "-"
     && (3 <? Z.of_nat (List.length (Js.split domain "-"))),
     (15, "Domain has suspicious hyphen pattern")) ].

(** The brand rule, once per brand. *)
Definition brandEntry (domain brand : string) : Rule :=
  (impersonates domain brand, (40, impersonation brand)).

(** The three rules evaluated after the brand rule. *)
Definition rulesAfter (urlToCheck : string) (urlObj : URL) : list Rule :=
  let domain := Js.toLowerCase (hostname urlObj) in
  [ (Regex.dottedQuadPrefix domain,
     (35, "Uses IP address instead of domain name"));
    (4 <? Z.of_nat (List.length (Js.split domain ".")),
     (20, "Excessive subdomains detected"));
    (Js.startsWith urlToCheck "http://",
     (15, "Not using secure HTTPS connection")) ].

Definition ruleTable (urlToCheck : string) (urlObj : URL) : list Rule :=
  rulesBefore urlToCheck urlObj
  ++ map (brandEntry (Js.toLowerCase (hostname urlObj))) commonBrands
  ++ rulesAfter urlToCheck urlObj.

(** The reasons of the thirteen entries of the table, in order. *)
Definition allReasons : list string :=
  [ "Domain contains suspicious keywords";
    "URL path contains phishing-related terms";
    "Uses URL shortening service";
    "Domain has suspicious hyphen pattern";
    "Potentially impersonating paypal";
    "Potentially impersonating amazon";
    "Potentially impersonating microsoft";
    "Potentially impersonating google";
    "Potentially impersonating apple";
    "Potentially impersonating netflix";
    "Uses IP address instead of domain name";
    "Excessive subdomains detected";
    "Not using secure HTTPS connection" ].

(** ** Inputs of the scenarios, with the URL object each is parsed to *)

Module Scenario.

Definition google : string := "https://www.google.com".
Definition google_url : URL :=
  {| hostname := "www.google.com"; pathname := "/" |}.

Definition badsite : string :=
  "http://secure-login-verify-account.badsite.com".
Definition badsite_url : URL :=
  {| hostname := "secure-login-verify-account.badsite.com";
     pathname := "/" |}.

Definition router : string := "http://192.168.1.1/login".
Definition router_url : URL :=
  {| hostname := "192.168.1.1"; pathname := "/login" |}.

Definition msonline : string := "https://login.microsoftonline.com".
Definition msonline_url : URL :=
  {| hostname := "login.microsoftonline.com"; pathname := "/" |}.

(** An input on which the accumulated weight is 145. *)
Definition twoBrands : string := "http://paypal-amazon.login.com/login".
Definition twoBrands_url : URL :=
  {| hostname := "paypal-amazon.login.com"; pathname := "/login" |}.

(** An input on which no rule fires. *)
Definition plain : string := "example.com".
Definition plain_url : URL :=
  {| hostname := "example.com"; pathname := "/" |}.

End Scenario.

(** ** The handler [checkUrl] of the component

    The state of the component is its four pieces of state: the text of
    the input field, the displayed result, the busy flag and the toasts
    raised so far.  A statement of the handler runs on that state and
    either completes or throws. *)

Record Toast : Type := {
  title : string;
  description : string;
  variant : string
}.

Record Component : Type := {
  url : string;
  result : option UrlCheckResult;
  isChecking : bool;
  toasts : list Toast
}.

Definition setResult (r : option UrlCheckResult) (c : Component)
  : Component :=
  {| url := url c; result := r; isChecking := isChecking c;
     toasts := toasts c |}.

Definition setIsChecking (b : bool) (c : Component) : Component :=
  {| url := url c; result := result c; isChecking := b;
     toasts := toasts c |}.

Definition toast (t : Toast) (c : Component) : Component :=
  {| url := url c; result := result c; isChecking := isChecking c;
     toasts := toasts c ++ [t] |}.

Definition urlRequired : Toast :=
  {| title := "URL Required";
     description := "Please enter a URL to check.";
     variant := "destructive" |}.

Definition analysisFailed : Toast :=
  {| title := "Error";
     description := "Failed to analyze URL. Please try again.";
     variant := "destructive" |}.

(** A statement of the handler: from a state, a completion and the state
    it leaves. *)
Definition Stmt (A : Type) : Type := Component -> Completion A * Component.

Definition seq {A B : Type} (m : Stmt A) (k : A -> Stmt B) : Stmt B :=
  fun c =>
    match m c with
    | (Normal a, c1) => k a c1
    | (Throw, c1) => (Throw, c1)
    end.

(** A call that does not touch the state of the component. *)
Definition call {A : Type} (r : Completion A) : Stmt A := fun c => (r, c).

(** A state update: [setResult(...)], [setIsChecking(...)], [toast(...)]. *)
Definition update (f : Component -> Component) : Stmt unit :=
  fun c => (Normal tt, f c).

(** [try { body } catch (error) { handler } finally { final }]: the
    handler runs when the body throws, and [final] runs in every case; an
    error thrown by the handler is thrown again after [final]. *)
Definition try_catch_finally (body handler final : Stmt unit) : Stmt unit :=
  fun c =>
    match body c with
    | (Normal _, c1) => final c1
    | (Throw, c1) =>
        match handler c1 with
        | (Normal _, c2) => final c2
        | (Throw, c2) => (Throw, snd (final c2))
        end
    end.

Section CheckUrl.

(** [new URL(s)] and [s.trim()], the platform's. *)
Variable newURL : string -> Completion URL.
Variable trim : string -> string.

(** [checkUrl] up to its [await]: [true] when it goes on to wait, [false]
    when it has returned. *)
Definition checkUrl_start : Stmt bool :=
  fun c =>
    if (String.length (trim (url c)) =? 0)%nat
    then seq (update (toast urlRequired)) (fun _ => call (Normal false)) c
    else seq (update (setIsChecking true)) (fun _ =>
         seq (update (setResult None)) (fun _ => call (Normal true))) c.

(** [checkUrl] after its [await]; [text] is the value of [url] the handler
    was started with. *)
Definition checkUrl_resume (text : string) : Stmt unit :=
  try_catch_finally
    (seq (call (analyzeUrl newURL text)) (fun analysis =>
       update (setResult (Some analysis))))
    (update (toast analysisFailed))
    (update (setIsChecking false)).

(** A run of [checkUrl] from start to end, no other handler running while
    it waits. *)
Definition checkUrl : Stmt unit :=
  fun c =>
    match checkUrl_start c with
    | (Normal true, c1) => checkUrl_resume (url c) c1
    | (Normal false, c1) => (Normal tt, c1)
    | (Throw, c1) => (Throw, c1)
    end.

End CheckUrl.

(** ** The voice assistant: [findBestMatch] *)

Module VoiceBot.

Definition whatIsPhishing : string :=
  "Phishing is a cybercrime where attackers impersonate legitimate organizations to steal sensitive information like passwords, credit card numbers, or personal data through fake emails, websites, or messages.".

Definition howCanIStaySafe : string :=
  "Stay safe by: verifying sender identity, checking URLs carefully, never clicking suspicious links, using two-factor authentication, keeping software updated, and being cautious with personal information sharing.".

Definition emailRedFlags : string :=
  "Email red flags include: urgent language, generic greetings, suspicious attachments, mismatched sender addresses, poor grammar, requests for personal information, and unfamiliar or suspicious links.".

Definition commonTactics : string :=
  "Common tactics include fake login pages, urgent account suspension notices, fake prize notifications, malicious attachments, CEO fraud, and social engineering through phone calls or messages.".

Definition howToVerifyEmails : string :=
  "Verify emails by checking the sender's domain, hovering over links to see real URLs, contacting the organization directly, looking for spelling errors, and being wary of unexpected urgent requests.".

(** The object [phishingFAQ], with its entries in insertion order. *)
Definition phishingFAQ : list (string * string) :=
  [ ("what is phishing", whatIsPhishing);
    ("how can i stay safe", howCanIStaySafe);
    ("tell me about email red flags", emailRedFlags);
    ("what are common phishing tactics", commonTactics);
    ("how to verify emails", howToVerifyEmails) ].

Definition helpMessage : string :=
  "I'm here to help with phishing awareness! Try asking about 'what is phishing', 'how to stay safe', 'email red flags', or 'how to verify emails'.".

(** The [for] loop over [Object.entries(phishingFAQ)]: the value of the
    first entry whose key the question includes. *)
Fixpoint firstIncluded (normalizedQuestion : string)
  (entries : list (string * string)) : option string :=
  match entries with
  | [] => None
  | (key, value) :: rest =>
      if Js.includes normalizedQuestion key then Some value
      else firstIncluded normalizedQuestion rest
  end.

(** The keyword checks after the loop. *)
Definition keywordAnswer (normalizedQuestion : string) : string :=
  if Js.includes normalizedQuestion "phishing"
     || Js.includes normalizedQuestion "phish" then whatIsPhishing
  else if Js.includes normalizedQuestion "safe"
          || Js.includes normalizedQuestion "protect" then howCanIStaySafe
  else if Js.includes normalizedQuestion "email"
          || Js.includes normalizedQuestion "red flag" then emailRedFlags
  else if Js.includes normalizedQuestion "verify"
          || Js.includes normalizedQuestion "check" then howToVerifyEmails
  else helpMessage.

Section FindBestMatch.

(** [s.toLowerCase()] and [s.trim()] on arbitrary text, the platform's. *)
Variable toLowerCase : string -> string.
Variable trim : string -> string.

Definition findBestMatch (question : string) : string :=
  let normalizedQuestion := trim (toLowerCase question) in
  match firstIncluded normalizedQuestion phishingFAQ with
  | Some value => value
  | None => keywordAnswer normalizedQuestion
  end.

End FindBestMatch.

End VoiceBot.

(** ** Reference text functions

    [trim] on text whose white space is ASCII (space, tab, line feed,
    vertical tab, form feed, carriage return); it instantiates the
    parameters above on concrete inputs, with [Js.toLowerCase]. *)

Module AsciiText.

Definition isSpace (c : ascii) : bool :=
  let n := nat_of_ascii c in
  ((n =? 32) || ((9 <=? n) && (n <=? 13)))%nat.

Fixpoint trimStart (s : string) : string :=
  match s with
  | EmptyString => EmptyString
  | String c s' => if isSpace c then trimStart s' else s
  end.

(** [trimEnd s]: [s] without its trailing white space. *)
Fixpoint trimEnd (s : string) : string :=
  match s with
  | EmptyString => EmptyString
  | String c s' =>
      match trimEnd s' with
      | EmptyString => if isSpace c then EmptyString else String c ""
      | rest => String c rest
      end
  end.

Definition trim (s : string) : string := trimEnd (trimStart s).

End AsciiText.

(** The number of occurrences of the character [c] in [s]. *)
Fixpoint occurrences (c : ascii) (s : string) : nat :=
  match s with
  | EmptyString => 0
  | String d s' => (if Ascii.eqb d c then 1 else 0) + occurrences c s'
  end.

(** A string of digits. *)
Fixpoint allDigits (s : string) : bool :=
  match s with
  | EmptyString => true
  | String c s' => Regex.isDigit c && allDigits s'
  end.

(** * Properties *)

(** ** The string methods

    What [startsWith], [includes] and [endsWith] decide, in terms of
    concatenation. *)

Lemma prefix_iff (p s : string) :
  String.prefix p s = true <-> exists rest, s = (p ++ rest)%string.
Proof.
  revert s. induction p as [| c p IH]; intros s.
  - split; [intros _; now exists s | now destruct s].
  - destruct s as [| d s]; simpl.
    + split; [discriminate | intros [rest Hrest]; discriminate].
    + destruct (ascii_dec c d) as [-> | Hcd].
      * rewrite IH. split; intros [rest Hrest]; exists rest.
        -- now rewrite Hrest.
        -- now injection Hrest.
      * split; [discriminate |].
        intros [rest Hrest]. injection Hrest as Hd _. congruence.
Qed.

Lemma startsWith_iff (s p : string) :
  Js.startsWith s p = true <-> exists rest, s = (p ++ rest)%string.
Proof. apply prefix_iff. Qed.

Lemma includes_iff (s p : string) :
  Js.includes s p = true
  <-> exists front rest, s = (front ++ p ++ rest)%string.
Proof.
  induction s as [| c s IH].
  - change (Js.includes "" p) with (String.prefix p "" || false).
    rewrite orb_false_r, prefix_iff. split.
    + intros [rest Hrest]. now exists ""%string, rest.
    + intros (front & rest & H). exists rest.
      destruct front; [exact H | discriminate H].
  - change (Js.includes (String c s) p)
      with (String.prefix p (String c s) || Js.includes s p).
    rewrite orb_true_iff, prefix_iff, IH. split.
    + intros [[rest H] | (front & rest & H)].
      * now exists ""%string, rest.
      * exists (String c front), rest. simpl. now rewrite H.
    + intros (front & rest & H). destruct front as [| d front].
      * left. now exists rest.
      * right. exists front, rest. simpl in H. now injection H.
Qed.

Lemma length_app_string (a b : string) :
  String.length (a ++ b) = (String.length a + String.length b)%nat.
Proof. induction a as [| c a IH]; simpl; [reflexivity | now rewrite IH]. Qed.

Lemma substring_whole (s : string) :
  String.substring 0 (String.length s) s = s.
Proof. induction s as [| c s IH]; simpl; [reflexivity | now rewrite IH]. Qed.

Lemma substring_after (a p : string) :
  String.substring (String.length a) (String.length p) (a ++ p) = p.
Proof.
  induction a as [| c a IH]; simpl; [apply substring_whole | exact IH].
Qed.

Lemma substring_cut (s : string) (k : nat) :
  (k <= String.length s)%nat ->
  s = (String.substring 0 k s
       ++ String.substring k (String.length s - k) s)%string.
Proof.
  revert k. induction s as [| c s IH]; intros k Hk.
  - destruct k; reflexivity.
  - destruct k as [| k].
    + simpl. now rewrite substring_whole.
    + simpl in Hk. simpl. f_equal. apply IH. lia.
Qed.

Lemma endsWith_iff (s p : string) :
  Js.endsWith s p = true <-> exists front, s = (front ++ p)%string.
Proof.
  unfold Js.endsWith. rewrite andb_true_iff, Nat.leb_le, String.eqb_eq.
  split.
  - intros [Hle Hsub]. exists (String.substring 0
                                  (String.length s - String.length p) s).
    rewrite (substring_cut s (String.length s - String.length p)) at 1
      by lia.
    f_equal.
    replace (String.length s - (String.length s - String.length p))%nat
      with (String.length p) by lia.
    exact Hsub.
  - intros [front ->]. rewrite length_app_string. split; [lia |].
    replace (String.length front + String.length p - String.length p)%nat
      with (String.length front) by lia.
    apply substring_after.
Qed.

(** [split], the regular expression and the reference parser on
    concrete strings. *)

Example split_consecutive_separators :
  Js.split "a--b-" "-" = [ "a"; ""; "b"; "" ].
Proof. reflexivity. Qed.

Example split_without_separator :
  Js.split "" "." = [ "" ] /\ Js.split "localhost" "." = [ "localhost" ].
Proof. split; reflexivity. Qed.

Example split_long_separator :
  Js.split "abcabca" "bc" = [ "a"; "a"; "a" ].
Proof. reflexivity. Qed.

Example dottedQuadPrefix_samples :
  Regex.dottedQuadPrefix "10.0.0.1" = true
  /\ Regex.dottedQuadPrefix "1.2.3.4.example.com" = true
  /\ Regex.dottedQuadPrefix "192.168.1" = false
  /\ Regex.dottedQuadPrefix "a1.2.3.4" = false
  /\ Regex.dottedQuadPrefix "1..2.3" = false.
Proof. repeat split. Qed.

Example parse_samples :
  UrlModel.parse "https://user:pw@Example.COM:8080/A/b?q=1#f"
  = Normal {| hostname := "example.com"; pathname := "/A/b" |}
  /\ UrlModel.parse "https://" = Throw
  /\ UrlModel.parse "https://a b" = Throw
  /\ UrlModel.parse "example.com" = Throw.
Proof. repeat split. Qed.

(** ** Running a table *)

Lemma fold_runRule (t : list Rule) (st : Locals) :
  fold_left runRule t st =
  {| riskScore := riskScore st + totalWeight (fired t);
     pushed := pushed st ++ map reasonOf (fired t) |}.
Proof.
  revert st.
  induction t as [| [b [w r]] t IH]; intros st.
  - destruct st as [n l]. simpl. now rewrite Z.add_0_r, app_nil_r.
  - simpl fold_left. rewrite IH. unfold runRule, holds, fired. simpl.
    destruct b; simpl.
    + unfold weightOf, reasonOf. simpl. rewrite <- app_assoc. simpl.
      f_equal. lia.
    + reflexivity.
Qed.

Lemma fold_brandRule (domain : string) (brands : list string) (st : Locals) :
  fold_left (brandRule domain) brands st =
  fold_left runRule (map (brandEntry domain) brands) st.
Proof.
  revert st.
  induction brands as [| b brands IH]; intros st; simpl.
  - reflexivity.
  - now rewrite IH.
Qed.

(** The code of [rules] runs [ruleTable]. *)
Lemma rules_runs_table (urlToCheck : string) (urlObj : URL) :
  rules urlToCheck urlObj =
  fold_left runRule (ruleTable urlToCheck urlObj) init.
Proof.
  unfold ruleTable.
  rewrite !fold_left_app, <- fold_brandRule.
  reflexivity.
Qed.

Lemma rules_fired (urlToCheck : string) (urlObj : URL) :
  rules urlToCheck urlObj =
  {| riskScore := totalWeight (fired (ruleTable urlToCheck urlObj));
     pushed := map reasonOf (fired (ruleTable urlToCheck urlObj)) |}.
Proof.
  rewrite rules_runs_table, fold_runRule. reflexivity.
Qed.

(** ** Bounds on the accumulated weight *)

Lemma fired_weight_bounds (t : list Rule) :
  Forall (fun e => 0 <= weightOf e <= 40) t ->
  0 <= totalWeight (fired t) <= 40 * Z.of_nat (List.length (fired t)).
Proof.
  induction 1 as [| e t He _ IH].
  - simpl. lia.
  - unfold fired in *. simpl filter. destruct (holds e); [| exact IH].
    change (totalWeight (e :: filter holds t))
      with (weightOf e + totalWeight (filter holds t)).
    change (List.length (e :: filter holds t))
      with (S (List.length (filter holds t))).
    rewrite Nat2Z.inj_succ. lia.
Qed.

Lemma ruleTable_weights (urlToCheck : string) (urlObj : URL) :
  Forall (fun e => 0 <= weightOf e <= 40) (ruleTable urlToCheck urlObj).
Proof.
  unfold ruleTable. rewrite !Forall_app. repeat split.
  - unfold rulesBefore. repeat constructor; unfold weightOf; simpl; lia.
  - rewrite Forall_map. apply Forall_forall. intros b _.
    unfold weightOf, brandEntry. simpl. lia.
  - unfold rulesAfter. repeat constructor; unfold weightOf; simpl; lia.
Qed.

Lemma rules_weight_bounds (urlToCheck : string) (urlObj : URL) :
  0 <= riskScore (rules urlToCheck urlObj)
    <= 40 * Z.of_nat (List.length (pushed (rules urlToCheck urlObj))).
Proof.
  rewrite rules_fired. cbn [riskScore pushed]. rewrite length_map.
  apply fired_weight_bounds, ruleTable_weights.
Qed.

(** ** The classification *)

Lemma classify_score (st : Locals) :
  score (classify st) = Z.min (riskScore st) 100.
Proof.
  unfold classify.
  destruct (50 <=? riskScore st); [reflexivity |].
  destruct (25 <=? riskScore st); reflexivity.
Qed.

Lemma classify_status (st : Locals) :
  status (classify st) =
  if 50 <=? riskScore st then dangerous
  else if 25 <=? riskScore st then suspicious else safe.
Proof.
  unfold classify.
  destruct (50 <=? riskScore st); [reflexivity |].
  destruct (25 <=? riskScore st); reflexivity.
Qed.

Lemma classify_bands (st : Locals) :
  (status (classify st) = dangerous <-> 50 <= score (classify st))
  /\ (status (classify st) = suspicious <-> 25 <= score (classify st) < 50)
  /\ (status (classify st) = safe <-> score (classify st) < 25).
Proof.
  rewrite classify_score, classify_status.
  destruct (Z.leb_spec 50 (riskScore st));
    [| destruct (Z.leb_spec 25 (riskScore st))];
    repeat split; intros; try discriminate; try reflexivity; lia.
Qed.

Lemma classify_reasons_nonempty (st : Locals) :
  reasons (classify st) <> [].
Proof.
  unfold classify.
  destruct (50 <=? riskScore st); [discriminate |].
  destruct (25 <=? riskScore st); [discriminate |].
  simpl. destruct (pushed st); simpl; discriminate.
Qed.

(** ** The two paths of the scorer *)

Section ScorerFacts.

Variable newURL : string -> Completion URL.

Lemma analyze_parsed (inputUrl : string) (urlObj : URL) :
  newURL (normalize inputUrl) = Normal urlObj ->
  analyze newURL inputUrl = classify (rules (normalize inputUrl) urlObj).
Proof. intros H. unfold analyze. now rewrite H. Qed.

Lemma analyze_unparsed (inputUrl : string) :
  newURL (normalize inputUrl) = Throw ->
  analyze newURL inputUrl = fallback.
Proof. intros H. unfold analyze. now rewrite H. Qed.

Lemma analyzeUrl_analyze (inputUrl : string) :
  analyzeUrl newURL inputUrl = Normal (analyze newURL inputUrl).
Proof.
  unfold analyzeUrl, tryBlock, analyze.
  destruct (newURL (normalize inputUrl)); reflexivity.
Qed.

(** Case analysis on the result of the parser. *)
Lemma analyze_cases (inputUrl : string) :
  (exists urlObj,
      newURL (normalize inputUrl) = Normal urlObj
      /\ analyze newURL inputUrl
         = classify (rules (normalize inputUrl) urlObj))
  \/ (newURL (normalize inputUrl) = Throw
      /\ analyze newURL inputUrl = fallback).
Proof.
  unfold analyze.
  destruct (newURL (normalize inputUrl)) as [u |]; eauto.
Qed.

End ScorerFacts.

(** ** The reasons pushed by the rules *)

Lemma ruleTable_reasons (urlToCheck : string) (urlObj : URL) :
  map reasonOf (ruleTable urlToCheck urlObj) = allReasons.
Proof. reflexivity. Qed.

Lemma allReasons_NoDup : NoDup allReasons.
Proof.
  replace allReasons with (nodup string_dec allReasons)
    by (vm_compute; reflexivity).
  apply NoDup_nodup.
Qed.

(** Firing keeps the reasons of a table distinct. *)
Lemma fired_reasons_NoDup (t : list Rule) :
  NoDup (map reasonOf t) -> NoDup (map reasonOf (fired t)).
Proof.
  unfold fired.
  induction t as [| e t IH]; intros Hdistinct; [constructor |].
  apply NoDup_cons_iff in Hdistinct. destruct Hdistinct as [Hfresh Hrest].
  simpl filter. destruct (holds e); [| now apply IH].
  simpl map. constructor; [| now apply IH].
  intros Hin. apply Hfresh.
  apply in_map_iff in Hin. destruct Hin as (e' & Hsame & Hfired).
  apply filter_In in Hfired. apply in_map_iff. exists e'. tauto.
Qed.

Lemma rules_pushed_NoDup (urlToCheck : string) (urlObj : URL) :
  NoDup (pushed (rules urlToCheck urlObj)).
Proof.
  rewrite rules_fired. cbn [pushed].
  apply fired_reasons_NoDup. rewrite ruleTable_reasons.
  apply allReasons_NoDup.
Qed.

(** ** The brand rule inside the table *)

Lemma totalWeight_app (t1 t2 : list Rule) :
  totalWeight (t1 ++ t2) = totalWeight t1 + totalWeight t2.
Proof.
  induction t1 as [| e t1 IH]; simpl.
  - reflexivity.
  - rewrite IH. lia.
Qed.

Lemma fired_app (t1 t2 : list Rule) :
  fired (t1 ++ t2) = fired t1 ++ fired t2.
Proof. apply filter_app. Qed.

Lemma fired_brands (domain : string) (brands : list string) :
  fired (map (brandEntry domain) brands) =
  map (brandEntry domain) (filter (impersonates domain) brands).
Proof.
  induction brands as [| b brands IH].
  - reflexivity.
  - change (fired (map (brandEntry domain) (b :: brands)))
      with (if impersonates domain b
            then brandEntry domain b :: fired (map (brandEntry domain) brands)
            else fired (map (brandEntry domain) brands)).
    simpl filter.
    destruct (impersonates domain b); simpl map; now rewrite IH.
Qed.

Lemma brands_weight (domain : string) (brands : list string) :
  totalWeight (map (brandEntry domain) brands) =
  40 * Z.of_nat (List.length brands).
Proof.
  induction brands as [| b brands IH].
  - reflexivity.
  - change (totalWeight (map (brandEntry domain) (b :: brands)))
      with (40 + totalWeight (map (brandEntry domain) brands)).
    change (List.length (b :: brands)) with (S (List.length brands)).
    rewrite IH, Nat2Z.inj_succ. lia.
Qed.

Lemma brands_reasons (domain : string) (brands : list string) :
  map reasonOf (map (brandEntry domain) brands) = map impersonation brands.
Proof. rewrite map_map. reflexivity. Qed.

Lemma impersonation_inj (b1 b2 : string) :
  impersonation b1 = impersonation b2 -> b1 = b2.
Proof. unfold impersonation. simpl. intros H. now injection H. Qed.

Lemma rules_riskScore_split (urlToCheck : string) (urlObj : URL) :
  riskScore (rules urlToCheck urlObj) =
  totalWeight (fired (rulesBefore urlToCheck urlObj))
  + 40 * Z.of_nat (List.length
           (filter (impersonates (Js.toLowerCase (hostname urlObj)))
                   commonBrands))
  + totalWeight (fired (rulesAfter urlToCheck urlObj)).
Proof.
  rewrite rules_fired. cbn [riskScore]. unfold ruleTable.
  rewrite !fired_app, !totalWeight_app, fired_brands, brands_weight.
  lia.
Qed.

Lemma rules_pushed_split (urlToCheck : string) (urlObj : URL) :
  pushed (rules urlToCheck urlObj) =
  map reasonOf (fired (rulesBefore urlToCheck urlObj))
  ++ map impersonation
       (filter (impersonates (Js.toLowerCase (hostname urlObj)))
               commonBrands)
  ++ map reasonOf (fired (rulesAfter urlToCheck urlObj)).
Proof.
  rewrite rules_fired. cbn [pushed]. unfold ruleTable.
  now rewrite !fired_app, !map_app, fired_brands, brands_reasons.
Qed.

Lemma fired_reason_in (t : list Rule) (r : string) :
  In r (map reasonOf (fired t)) -> In r (map reasonOf t).
Proof.
  intros H. apply in_map_iff in H. destruct H as (e & He & Hin).
  apply filter_In in Hin. apply in_map_iff. exists e. tauto.
Qed.

Lemma impersonation_not_before (urlToCheck : string) (urlObj : URL)
  (brand : string) :
  ~ In (impersonation brand)
       (map reasonOf (fired (rulesBefore urlToCheck urlObj))).
Proof.
  intros H. apply fired_reason_in in H.
  unfold rulesBefore, reasonOf, impersonation in H. simpl in H.
  repeat (destruct H as [H | H]; [discriminate H |]). exact H.
Qed.

Lemma impersonation_not_after (urlToCheck : string) (urlObj : URL)
  (brand : string) :
  ~ In (impersonation brand)
       (map reasonOf (fired (rulesAfter urlToCheck urlObj))).
Proof.
  intros H. apply fired_reason_in in H.
  unfold rulesAfter, reasonOf, impersonation in H. simpl in H.
  repeat (destruct H as [H | H]; [discriminate H |]). exact H.
Qed.

Lemma impersonation_pushed (urlToCheck : string) (urlObj : URL)
  (brand : string) :
  In (impersonation brand) (pushed (rules urlToCheck urlObj)) <->
  In brand commonBrands
  /\ impersonates (Js.toLowerCase (hostname urlObj)) brand = true.
Proof.
  rewrite rules_pushed_split. rewrite !in_app_iff. split.
  - intros [H | [H | H]].
    + now apply impersonation_not_before in H.
    + apply in_map_iff in H. destruct H as (b & Hb & Hin).
      apply impersonation_inj in Hb. subst b.
      now apply filter_In in Hin.
    + now apply impersonation_not_after in H.
  - intros H. right. left. apply in_map. now apply filter_In.
Qed.

Lemma impersonates_true (domain brand : string) :
  impersonates domain brand = true <->
  Js.includes domain brand = true
  /\ Js.endsWith domain (brand ++ ".com") = false
  /\ Js.endsWith domain (brand ++ ".net") = false.
Proof.
  unfold impersonates.
  rewrite !andb_true_iff, !negb_true_iff. tauto.
Qed.

(** * The scenarios *)

(** [evaluate H]: from [H : newURL input = Normal urlObj], replace the call
    of the scorer on [input] by the classification of the rules and
    evaluate the goal. *)
Ltac evaluate H :=
  lazymatch type of H with
  | ?newURL ?input = Normal ?urlObj =>
      let E := fresh "E" in
      pose proof (analyze_parsed newURL input urlObj H) as E;
      cbv delta [Scenario.google Scenario.badsite Scenario.router
                 Scenario.msonline Scenario.twoBrands Scenario.plain] in E;
      rewrite !E; clear E; vm_compute
  end.

(** C1, as the specification states it, fails: with the reference parser the
    scorer does not answer score 0, safe, no red flags on
    [https://www.google.com]. *)
Lemma google_is_not_scored_safe :
  analyze UrlModel.parse "https://www.google.com"
  <> {| status := safe;
        score := 0;
        reasons := ["No obvious red flags detected"] |}.
Proof. vm_compute. discriminate. Qed.

(** C1 (amended): on [https://www.google.com], parsed to the host
    [www.google.com] and the path [/], the keyword [google] of the keyword
    list occurs in the host and the host is not on the allowlist, so the
    host-keyword rule fires, and it is the only rule that fires; the scorer
    returns score 30, status suspicious and the reasons
    "Potential security concerns", "Domain contains suspicious keywords". *)
Theorem google_scored_suspicious (newURL : string -> Completion URL) :
  newURL Scenario.google = Normal Scenario.google_url ->
  In "google" suspiciousKeywords
  /\ Js.includes "www.google.com" "google" = true
  /\ isLegitimateUse "www.google.com" "google" = false
  /\ fired (ruleTable Scenario.google Scenario.google_url)
     = [ (true, (30, "Domain contains suspicious keywords")) ]
  /\ analyze newURL "https://www.google.com"
     = {| status := suspicious;
          score := 30;
          reasons := [ "Potential security concerns";
                       "Domain contains suspicious keywords" ] |}.
Proof.
  intros H.
  evaluate H. repeat split. tauto.
Qed.

Lemma google_scored_suspicious_witness :
  UrlModel.parse Scenario.google = Normal Scenario.google_url
  /\ analyze UrlModel.parse "https://www.google.com"
     = {| status := suspicious;
          score := 30;
          reasons := [ "Potential security concerns";
                       "Domain contains suspicious keywords" ] |}.
Proof.
  split; [reflexivity |].
  apply (google_scored_suspicious UrlModel.parse). reflexivity.
Defined.

(** C7: on [http://secure-login-verify-account.badsite.com] the host splits
    on hyphens into 4 segments; the keywords login, verify, secure and
    account occur in it and the host-keyword rule fires once, for 30; the
    hyphen rule fires for 15 and the http rule for 15; the score is 60,
    which is at least 50, and the status is dangerous. *)
Theorem badsite_scored_dangerous (newURL : string -> Completion URL) :
  newURL Scenario.badsite = Normal Scenario.badsite_url ->
  Js.split "secure-login-verify-account.badsite.com" "-"
  = [ "secure"; "login"; "verify"; "account.badsite.com" ]
  /\ filter (Js.includes "secure-login-verify-account.badsite.com")
            suspiciousKeywords
     = [ "login"; "verify"; "secure"; "account" ]
  /\ fired (ruleTable Scenario.badsite Scenario.badsite_url)
     = [ (true, (30, "Domain contains suspicious keywords"));
         (true, (15, "Domain has suspicious hyphen pattern"));
         (true, (15, "Not using secure HTTPS connection")) ]
  /\ analyze newURL "http://secure-login-verify-account.badsite.com"
     = {| status := dangerous;
          score := 60;
          reasons := [ "High risk of phishing";
                       "Domain contains suspicious keywords";
                       "Domain has suspicious hyphen pattern";
                       "Not using secure HTTPS connection" ] |}
  /\ 50 <= score (analyze newURL
                    "http://secure-login-verify-account.badsite.com").
Proof.
  intros H.
  evaluate H. repeat split. discriminate.
Qed.

Lemma badsite_scored_dangerous_witness :
  UrlModel.parse Scenario.badsite = Normal Scenario.badsite_url
  /\ status (analyze UrlModel.parse
               "http://secure-login-verify-account.badsite.com")
     = dangerous.
Proof.
  split; [reflexivity |].
  destruct (badsite_scored_dangerous UrlModel.parse eq_refl)
    as (_ & _ & _ & H & _).
  rewrite H. reflexivity.
Defined.

(** C8: on [http://192.168.1.1/login] exactly three rules fire: the path
    keyword rule for 20 (login), the IP-literal rule for 35 and the http
    rule for 15; the score is exactly 70 and the status is dangerous. *)
Theorem router_scored_70 (newURL : string -> Completion URL) :
  newURL Scenario.router = Normal Scenario.router_url ->
  Js.includes "/login" "login" = true
  /\ Regex.dottedQuadPrefix "192.168.1.1" = true
  /\ fired (ruleTable Scenario.router Scenario.router_url)
     = [ (true, (20, "URL path contains phishing-related terms"));
         (true, (35, "Uses IP address instead of domain name"));
         (true, (15, "Not using secure HTTPS connection")) ]
  /\ analyze newURL "http://192.168.1.1/login"
     = {| status := dangerous;
          score := 70;
          reasons := [ "High risk of phishing";
                       "URL path contains phishing-related terms";
                       "Uses IP address instead of domain name";
                       "Not using secure HTTPS connection" ] |}.
Proof.
  intros H.
  evaluate H. repeat split.
Qed.

Lemma router_scored_70_witness :
  UrlModel.parse Scenario.router = Normal Scenario.router_url
  /\ score (analyze UrlModel.parse "http://192.168.1.1/login") = 70.
Proof.
  split; [reflexivity |].
  destruct (router_scored_70 UrlModel.parse eq_refl) as (_ & _ & _ & H).
  rewrite H. reflexivity.
Defined.

(** C9: the allowlist exempts the host-keyword rule only.  On
    [https://login.microsoftonline.com], whose host is on the allowlist,
    the host-keyword rule does not fire although the host contains
    keywords, but the brand rule fires for microsoft: the host contains
    microsoft and ends with neither microsoft.com nor microsoft.net.  The
    result is score 40, status suspicious, reasons
    "Potential security concerns", "Potentially impersonating microsoft". *)
Theorem allowlist_exempts_keyword_rule_only
  (newURL : string -> Completion URL) :
  newURL Scenario.msonline = Normal Scenario.msonline_url ->
  In "login.microsoftonline.com" legitimateDomains
  /\ filter (Js.includes "login.microsoftonline.com") suspiciousKeywords
     = [ "login"; "microsoft" ]
  /\ (forall keyword,
        isLegitimateUse "login.microsoftonline.com" keyword = true)
  /\ Js.includes "login.microsoftonline.com" "microsoft" = true
  /\ Js.endsWith "login.microsoftonline.com" "microsoft.com" = false
  /\ Js.endsWith "login.microsoftonline.com" "microsoft.net" = false
  /\ fired (ruleTable Scenario.msonline Scenario.msonline_url)
     = [ (true, (40, "Potentially impersonating microsoft")) ]
  /\ analyze newURL "https://login.microsoftonline.com"
     = {| status := suspicious;
          score := 40;
          reasons := [ "Potential security concerns";
                       "Potentially impersonating microsoft" ] |}.
Proof.
  intros H.
  evaluate H. repeat split. tauto.
Qed.

Lemma allowlist_exempts_keyword_rule_only_witness :
  UrlModel.parse Scenario.msonline = Normal Scenario.msonline_url
  /\ analyze UrlModel.parse "https://login.microsoftonline.com"
     = {| status := suspicious;
          score := 40;
          reasons := [ "Potential security concerns";
                       "Potentially impersonating microsoft" ] |}.
Proof.
  split; [reflexivity |].
  apply (allowlist_exempts_keyword_rule_only UrlModel.parse). reflexivity.
Defined.

(** * The invariants of the result *)

(** C2: for every input the status and the returned score agree: dangerous
    exactly when the score is at least 50, suspicious exactly when it is
    at least 25 and below 50, safe exactly when it is below 25.  The status
    is computed from the accumulated weight and the score is that weight
    clamped at 100; at the accumulated weights 24, 25, 49 and 50 the
    classification gives safe, suspicious, suspicious and dangerous with
    these very scores. *)
Theorem status_agrees_with_score
  (newURL : string -> Completion URL) (inputUrl : string) :
  (status (analyze newURL inputUrl) = dangerous
   <-> 50 <= score (analyze newURL inputUrl))
  /\ (status (analyze newURL inputUrl) = suspicious
      <-> 25 <= score (analyze newURL inputUrl) < 50)
  /\ (status (analyze newURL inputUrl) = safe
      <-> score (analyze newURL inputUrl) < 25)
  /\ (forall l,
        let at_weight n := classify {| riskScore := n; pushed := l |} in
        (status (at_weight 24), score (at_weight 24)) = (safe, 24)
        /\ (status (at_weight 25), score (at_weight 25)) = (suspicious, 25)
        /\ (status (at_weight 49), score (at_weight 49)) = (suspicious, 49)
        /\ (status (at_weight 50), score (at_weight 50)) = (dangerous, 50)).
Proof.
  split; [| split; [| split]].
  4: { intros l. repeat split. }
  all: destruct (analyze_cases newURL inputUrl) as [(u & _ & E) | (_ & E)];
    rewrite E.
  all: try apply (classify_bands (rules (normalize inputUrl) u)).
  all: simpl; split; intros; try discriminate; try reflexivity; lia.
Qed.

(** C3: for every input, also when parsing fails, the score is an integer
    between 0 and 100; it is the accumulated weight clamped with a minimum,
    so it is exactly 100 when the accumulated weight exceeds 100; on the
    parse-failure path it is 30. *)
Theorem score_between_0_and_100
  (newURL : string -> Completion URL) (inputUrl : string) :
  0 <= score (analyze newURL inputUrl) <= 100
  /\ (forall urlObj,
        newURL (normalize inputUrl) = Normal urlObj ->
        score (analyze newURL inputUrl)
        = Z.min (riskScore (rules (normalize inputUrl) urlObj)) 100
        /\ (100 < riskScore (rules (normalize inputUrl) urlObj) ->
            score (analyze newURL inputUrl) = 100))
  /\ (newURL (normalize inputUrl) = Throw ->
      score (analyze newURL inputUrl) = 30).
Proof.
  split; [| split].
  - destruct (analyze_cases newURL inputUrl) as [(u & _ & E) | (_ & E)];
      rewrite E.
    + rewrite classify_score.
      pose proof (rules_weight_bounds (normalize inputUrl) u). lia.
    + simpl. lia.
  - intros u Hu. rewrite (analyze_parsed _ _ _ Hu), classify_score.
    split; [reflexivity | lia].
  - intros Hu. now rewrite (analyze_unparsed _ _ Hu).
Qed.

Lemma score_between_0_and_100_witness :
  UrlModel.parse (normalize Scenario.twoBrands)
  = Normal Scenario.twoBrands_url
  /\ riskScore (rules (normalize Scenario.twoBrands) Scenario.twoBrands_url)
     = 145
  /\ score (analyze UrlModel.parse Scenario.twoBrands) = 100.
Proof.
  split; [reflexivity | split; [reflexivity |]].
  apply (proj1 (proj2 (score_between_0_and_100 UrlModel.parse
                         Scenario.twoBrands))
           Scenario.twoBrands_url eq_refl).
  reflexivity.
Defined.

(** C4: for every input the list of reasons is not empty.  When the URL
    parses and no rule has pushed a reason, the status is safe and the list
    is the default "No obvious red flags detected" alone; when parsing
    fails, it is the two fixed diagnostic reasons. *)
Theorem reasons_never_empty
  (newURL : string -> Completion URL) (inputUrl : string) :
  reasons (analyze newURL inputUrl) <> []
  /\ (forall urlObj,
        newURL (normalize inputUrl) = Normal urlObj ->
        pushed (rules (normalize inputUrl) urlObj) = [] ->
        status (analyze newURL inputUrl) = safe
        /\ reasons (analyze newURL inputUrl)
           = [ "No obvious red flags detected" ])
  /\ (newURL (normalize inputUrl) = Throw ->
      reasons (analyze newURL inputUrl)
      = [ "Invalid URL format"; "Could not properly analyze URL" ]).
Proof.
  split; [| split].
  - destruct (analyze_cases newURL inputUrl) as [(u & _ & E) | (_ & E)];
      rewrite E.
    + apply classify_reasons_nonempty.
    + discriminate.
  - intros u Hu Hnone. rewrite (analyze_parsed _ _ _ Hu).
    pose proof (rules_weight_bounds (normalize inputUrl) u) as Hb.
    rewrite Hnone in Hb. simpl in Hb.
    unfold classify. rewrite Hnone.
    destruct (Z.leb_spec 50 (riskScore (rules (normalize inputUrl) u)));
      [lia |].
    destruct (Z.leb_spec 25 (riskScore (rules (normalize inputUrl) u)));
      [lia |].
    split; reflexivity.
  - intros Hu. now rewrite (analyze_unparsed _ _ Hu).
Qed.

Lemma reasons_never_empty_witness :
  (UrlModel.parse (normalize Scenario.plain) = Normal Scenario.plain_url
   /\ pushed (rules (normalize Scenario.plain) Scenario.plain_url) = []
   /\ reasons (analyze UrlModel.parse Scenario.plain)
      = [ "No obvious red flags detected" ])
  /\ (UrlModel.parse (normalize "") = Throw
      /\ reasons (analyze UrlModel.parse "")
         = [ "Invalid URL format"; "Could not properly analyze URL" ]).
Proof.
  split.
  - split; [reflexivity | split; [reflexivity |]].
    apply (proj1 (proj2 (reasons_never_empty UrlModel.parse Scenario.plain))
             Scenario.plain_url eq_refl eq_refl).
  - split; [reflexivity |].
    apply (proj2 (proj2 (reasons_never_empty UrlModel.parse "")) eq_refl).
Defined.

(** C5: [analyzeUrl] never throws: for every input it completes normally
    with the value of [analyze].  The [try] block throws exactly when the
    parser throws on the normalized string, and then the result is the
    fallback: status suspicious, score 30 and the two fixed diagnostic
    reasons. *)
Theorem analyzeUrl_never_throws
  (newURL : string -> Completion URL) (inputUrl : string) :
  analyzeUrl newURL inputUrl = Normal (analyze newURL inputUrl)
  /\ (tryBlock newURL inputUrl = Throw
      <-> newURL (normalize inputUrl) = Throw)
  /\ (newURL (normalize inputUrl) = Throw ->
      analyze newURL inputUrl
      = {| status := suspicious;
           score := 30;
           reasons := [ "Invalid URL format";
                        "Could not properly analyze URL" ] |}).
Proof.
  split; [apply analyzeUrl_analyze | split].
  - unfold tryBlock.
    destruct (newURL (normalize inputUrl)); simpl; split;
      intros; try discriminate; reflexivity.
  - intros Hu. now rewrite (analyze_unparsed _ _ Hu).
Qed.

Lemma analyzeUrl_never_throws_witness :
  UrlModel.parse (normalize "http://") = Throw
  /\ analyzeUrl UrlModel.parse "http://"
     = Normal {| status := suspicious;
                 score := 30;
                 reasons := [ "Invalid URL format";
                              "Could not properly analyze URL" ] |}.
Proof.
  split; [reflexivity |].
  destruct (analyzeUrl_never_throws UrlModel.parse "http://")
    as (Hreturns & _ & Hfallback).
  rewrite Hreturns, (Hfallback eq_refl). reflexivity.
Defined.

(** C10: a dangerous result has at least three reasons.  It does not come
    from the parse-failure path; the accumulated weight is at least 50, no
    rule weighs more than 40 and each weight comes with one reason, so the
    summary "High risk of phishing" is followed by at least two reasons. *)
Theorem dangerous_has_three_reasons
  (newURL : string -> Completion URL) (inputUrl : string) :
  status (analyze newURL inputUrl) = dangerous ->
  newURL (normalize inputUrl) <> Throw
  /\ (exists rest,
        reasons (analyze newURL inputUrl) = "High risk of phishing" :: rest
        /\ (2 <= List.length rest)%nat)
  /\ (3 <= List.length (reasons (analyze newURL inputUrl)))%nat.
Proof.
  destruct (analyze_cases newURL inputUrl) as [(u & Hu & E) | (_ & E)];
    rewrite E; [| discriminate].
  rewrite classify_status. unfold classify.
  pose proof (rules_weight_bounds (normalize inputUrl) u) as Hb.
  destruct (Z.leb_spec 50 (riskScore (rules (normalize inputUrl) u)))
    as [Hge | Hlt].
  - intros _. cbn [reasons].
    assert (2 <= List.length (pushed (rules (normalize inputUrl) u)))%nat
      as Hlen by lia.
    split; [congruence | split].
    + eexists. split; [reflexivity | exact Hlen].
    + simpl. lia.
  - destruct (25 <=? riskScore (rules (normalize inputUrl) u)); discriminate.
Qed.

Lemma dangerous_has_three_reasons_witness :
  status (analyze UrlModel.parse Scenario.router) = dangerous
  /\ (3 <= List.length (reasons (analyze UrlModel.parse Scenario.router)))%nat.
Proof.
  split; [reflexivity |].
  apply (dangerous_has_three_reasons UrlModel.parse Scenario.router).
  reflexivity.
Defined.

(** C6: whenever the URL parses, the brand rule is cumulative.  Each brand
    of the list whose name the lowercased host contains, without the host
    ending with the brand followed by [.com] or [.net], adds 40 to the
    accumulated weight and pushes its own reason, once; the rules before and
    after the brand rule each add their weight and push their reason at
    most once, so no reason is pushed twice. *)
Theorem brand_rule_cumulative
  (newURL : string -> Completion URL) (inputUrl : string) (urlObj : URL) :
  newURL (normalize inputUrl) = Normal urlObj ->
  commonBrands
  = [ "paypal"; "amazon"; "microsoft"; "google"; "apple"; "netflix" ]
  /\ analyze newURL inputUrl = classify (rules (normalize inputUrl) urlObj)
  /\ riskScore (rules (normalize inputUrl) urlObj)
     = totalWeight (fired (rulesBefore (normalize inputUrl) urlObj))
       + 40 * Z.of_nat (List.length
                (filter (impersonates (Js.toLowerCase (hostname urlObj)))
                        commonBrands))
       + totalWeight (fired (rulesAfter (normalize inputUrl) urlObj))
  /\ pushed (rules (normalize inputUrl) urlObj)
     = map reasonOf (fired (rulesBefore (normalize inputUrl) urlObj))
       ++ map (fun brand => "Potentially impersonating " ++ brand)%string
              (filter (impersonates (Js.toLowerCase (hostname urlObj)))
                      commonBrands)
       ++ map reasonOf (fired (rulesAfter (normalize inputUrl) urlObj))
  /\ (forall brand,
        In ("Potentially impersonating " ++ brand)%string
           (pushed (rules (normalize inputUrl) urlObj))
        <-> In brand commonBrands
            /\ Js.includes (Js.toLowerCase (hostname urlObj)) brand = true
            /\ Js.endsWith (Js.toLowerCase (hostname urlObj))
                 (brand ++ ".com") = false
            /\ Js.endsWith (Js.toLowerCase (hostname urlObj))
                 (brand ++ ".net") = false)
  /\ NoDup (pushed (rules (normalize inputUrl) urlObj)).
Proof.
  intros Hu. split; [reflexivity |].
  split; [exact (analyze_parsed _ _ _ Hu) |].
  split; [apply rules_riskScore_split |].
  split; [apply rules_pushed_split |].
  split; [| apply rules_pushed_NoDup].
  intros brand. rewrite <- impersonates_true.
  apply impersonation_pushed.
Qed.

Lemma brand_rule_cumulative_witness :
  UrlModel.parse (normalize Scenario.twoBrands)
  = Normal Scenario.twoBrands_url
  /\ filter (impersonates (Js.toLowerCase (hostname Scenario.twoBrands_url)))
            commonBrands
     = [ "paypal"; "amazon" ]
  /\ NoDup (pushed (rules (normalize Scenario.twoBrands)
                      Scenario.twoBrands_url)).
Proof.
  split; [reflexivity | split; [reflexivity |]].
  apply (brand_rule_cumulative UrlModel.parse Scenario.twoBrands
           Scenario.twoBrands_url eq_refl).
Defined.

(** * Further properties of the scorer *)

(** ** Separators and segments *)

Lemma prefix_char (c : ascii) (s : string) :
  String.prefix (String c "") s =
  match s with
  | EmptyString => false
  | String d _ => Ascii.eqb d c
  end.
Proof.
  destruct s as [| d s]; [reflexivity |]. simpl.
  destruct (ascii_dec c d) as [-> | Hcd].
  - rewrite Ascii.eqb_refl. now destruct s.
  - symmetry. apply Ascii.eqb_neq. congruence.
Qed.

Lemma split_from_char_length (c : ascii) (s cur : string) :
  List.length (Js.split_from (String c "") 0 cur s)
  = S (occurrences c s).
Proof.
  revert cur. induction s as [| d s IH]; intros cur; [reflexivity |].
  cbn [Js.split_from]. rewrite prefix_char. cbn [occurrences].
  destruct (Ascii.eqb d c); cbn [String.length Nat.sub List.length];
    rewrite IH; reflexivity.
Qed.

Lemma split_char_length (c : ascii) (s : string) :
  List.length (Js.split s (String c "")) = S (occurrences c s).
Proof. apply split_from_char_length. Qed.

Lemma includes_char (c : ascii) (s : string) :
  Js.includes s (String c "") = (0 <? occurrences c s)%nat.
Proof.
  induction s as [| d s IH]; [reflexivity |].
  change (Js.includes (String d s) (String c ""))
    with (String.prefix (String c "") (String d s)
          || Js.includes s (String c "")).
  rewrite prefix_char, IH. cbn [occurrences].
  destruct (Ascii.eqb d c); [reflexivity |].
  rewrite Nat.add_0_l. reflexivity.
Qed.

(** ** The dotted-quad pattern *)

Lemma dropDigits_dot (d rest : string) :
  allDigits d = true ->
  Regex.dropDigits (d ++ String "." rest) = String "." rest.
Proof.
  induction d as [| c d IH]; simpl; intros H; [reflexivity |].
  apply andb_true_iff in H. destruct H as [Hc Hd].
  rewrite Hc. now apply IH.
Qed.

Lemma digits_dot (d rest : string) :
  allDigits d = true -> d <> ""%string ->
  Regex.digits (d ++ String "." rest) = Some (String "." rest).
Proof.
  destruct d as [| c d]; [congruence |]. simpl. intros H _.
  apply andb_true_iff in H. destruct H as [Hc Hd].
  rewrite Hc. f_equal. now apply dropDigits_dot.
Qed.

Lemma digits_some (d rest : string) :
  allDigits d = true -> d <> ""%string ->
  exists r, Regex.digits (d ++ rest) = Some r.
Proof.
  destruct d as [| c d]; [congruence |]. simpl. intros H _.
  apply andb_true_iff in H. destruct H as [Hc _].
  rewrite Hc. eauto.
Qed.

Lemma dropDigits_split (s : string) :
  exists d, allDigits d = true /\ s = (d ++ Regex.dropDigits s)%string.
Proof.
  induction s as [| c s (d & Hd & Hs)].
  - now exists ""%string.
  - simpl. destruct (Regex.isDigit c) eqn:Hc.
    + exists (String c d). simpl. rewrite Hc, Hd. split; [reflexivity |].
      now rewrite <- Hs.
    + now exists ""%string.
Qed.

Lemma digits_split (s r : string) :
  Regex.digits s = Some r ->
  exists d, allDigits d = true /\ d <> ""%string /\ s = (d ++ r)%string.
Proof.
  destruct s as [| c s]; simpl; [discriminate |].
  destruct (Regex.isDigit c) eqn:Hc; [| discriminate].
  intros H. injection H as <-.
  destruct (dropDigits_split s) as (d & Hd & Hs).
  exists (String c d). simpl. rewrite Hc, Hd.
  repeat split; [discriminate | now rewrite <- Hs].
Qed.

Lemma dot_split (s r : string) :
  Regex.dot s = Some r -> s = String "." r.
Proof.
  destruct s as [| c s]; simpl; [discriminate |].
  destruct (Ascii.eqb_spec c "."%char) as [-> | Hc].
  - intros H. now injection H as <-.
  - destruct c as [[] [] [] [] [] [] [] []]; try discriminate.
    now contradiction Hc.
Qed.

(** X14: the test of the IP rule accepts exactly the strings that begin
    with four non-empty runs of digits separated by dots; anything may
    follow the fourth run. *)
Theorem dottedQuadPrefix_iff (s : string) :
  Regex.dottedQuadPrefix s = true
  <-> exists d1 d2 d3 d4 rest,
        (allDigits d1 = true /\ d1 <> ""%string)
        /\ (allDigits d2 = true /\ d2 <> ""%string)
        /\ (allDigits d3 = true /\ d3 <> ""%string)
        /\ (allDigits d4 = true /\ d4 <> ""%string)
        /\ s = (d1 ++ "." ++ d2 ++ "." ++ d3 ++ "." ++ d4 ++ rest)%string.
Proof.
  unfold Regex.dottedQuadPrefix, Regex.andThen. split.
  - destruct (Regex.digits s) as [r1 |] eqn:E1; [| discriminate].
    destruct (Regex.dot r1) as [r2 |] eqn:E2; [| discriminate].
    destruct (Regex.digits r2) as [r3 |] eqn:E3; [| discriminate].
    destruct (Regex.dot r3) as [r4 |] eqn:E4; [| discriminate].
    destruct (Regex.digits r4) as [r5 |] eqn:E5; [| discriminate].
    destruct (Regex.dot r5) as [r6 |] eqn:E6; [| discriminate].
    destruct (Regex.digits r6) as [r7 |] eqn:E7; [| discriminate].
    intros _.
    apply digits_split in E1, E3, E5, E7.
    apply dot_split in E2, E4, E6.
    destruct E1 as (d1 & H1 & N1 & ->), E3 as (d2 & H2 & N2 & ->),
      E5 as (d3 & H3 & N3 & ->), E7 as (d4 & H4 & N4 & ->).
    exists d1, d2, d3, d4, r7. subst. simpl. tauto.
  - intros (d1 & d2 & d3 & d4 & rest
            & [H1 N1] & [H2 N2] & [H3 N3] & [H4 N4] & ->).
    simpl. rewrite (digits_dot d1 _ H1 N1). cbn [Regex.dot].
    rewrite (digits_dot d2 _ H2 N2). cbn [Regex.dot].
    rewrite (digits_dot d3 _ H3 N3). cbn [Regex.dot].
    destruct (digits_some d4 rest H4 N4) as [r ->]. reflexivity.
Qed.

(** ** When a rule fires *)

Lemma table_entry_unique (t : list Rule) (e e' : Rule) :
  NoDup (map reasonOf t) -> In e t -> In e' t ->
  reasonOf e = reasonOf e' -> e = e'.
Proof.
  induction t as [| x t IH]; simpl; intros Hd He He' Hr; [tauto |].
  apply NoDup_cons_iff in Hd. destruct Hd as [Hx Hd].
  destruct He as [-> | He], He' as [-> | He']; auto.
  - exfalso. apply Hx. rewrite Hr. now apply in_map.
  - exfalso. apply Hx. rewrite <- Hr. now apply in_map.
Qed.

Lemma fired_reason_iff (t : list Rule) (e : Rule) :
  NoDup (map reasonOf t) -> In e t ->
  (In (reasonOf e) (map reasonOf (fired t)) <-> holds e = true).
Proof.
  intros Hd He. unfold fired. rewrite in_map_iff. split.
  - intros (e' & Hr & Hin). apply filter_In in Hin.
    destruct Hin as [Hin Hholds].
    now rewrite (table_entry_unique t e e' Hd He Hin (eq_sym Hr)).
  - intros Hholds. exists e. split; [reflexivity |].
    now apply filter_In.
Qed.

Lemma rule_pushed_iff (urlToCheck : string) (urlObj : URL) (e : Rule) :
  In e (ruleTable urlToCheck urlObj) ->
  (In (reasonOf e) (pushed (rules urlToCheck urlObj)) <-> holds e = true).
Proof.
  intros He. rewrite rules_fired. cbn [pushed].
  apply fired_reason_iff; [| exact He].
  rewrite ruleTable_reasons. apply allReasons_NoDup.
Qed.

Lemma rule_reason_not_summary (r : string) :
  In r allReasons ->
  r <> "High risk of phishing"%string
  /\ r <> "Potential security concerns"%string
  /\ r <> "No obvious red flags detected"%string
  /\ r <> "Invalid URL format"%string
  /\ r <> "Could not properly analyze URL"%string.
Proof.
  unfold allReasons. simpl.
  intros H. repeat (destruct H as [<- | H]; [repeat split; discriminate |]).
  contradiction.
Qed.

Lemma classify_rule_reason (st : Locals) (r : string) :
  In r allReasons ->
  (In r (reasons (classify st)) <-> In r (pushed st)).
Proof.
  intros Hr. apply rule_reason_not_summary in Hr.
  destruct Hr as (H1 & H2 & H3 & _).
  unfold classify.
  destruct (50 <=? riskScore st); [simpl; intuition congruence |].
  destruct (25 <=? riskScore st); [simpl; intuition congruence |].
  cbn [reasons]. destruct (pushed st) as [| x l]; simpl; [| tauto].
  intuition congruence.
Qed.

Lemma analyze_rule_reason (newURL : string -> Completion URL)
  (inputUrl r : string) :
  In r allReasons ->
  (In r (reasons (analyze newURL inputUrl))
   <-> exists urlObj,
         newURL (normalize inputUrl) = Normal urlObj
         /\ In r (pushed (rules (normalize inputUrl) urlObj))).
Proof.
  intros Hr.
  destruct (analyze_cases newURL inputUrl) as [(u & Hu & E) | (Hu & E)];
    rewrite E.
  - rewrite (classify_rule_reason _ _ Hr). split.
    + intros H. now exists u.
    + intros (u' & Hu' & H). rewrite Hu in Hu'. now injection Hu' as <-.
  - apply rule_reason_not_summary in Hr. destruct Hr as (_ & _ & _ & H4 & H5).
    split.
    + simpl. intuition congruence.
    + intros (u & Hu' & _). congruence.
Qed.

(** A rule of the table is reported in the result exactly when the URL
    parses and the condition of the rule holds. *)
Lemma analyze_fires_iff (newURL : string -> Completion URL)
  (inputUrl : string) (cond : string -> URL -> bool) (w : Z) (r : string) :
  (forall n u, In (cond n u, (w, r)) (ruleTable n u)) ->
  (In r (reasons (analyze newURL inputUrl))
   <-> exists urlObj,
         newURL (normalize inputUrl) = Normal urlObj
         /\ cond (normalize inputUrl) urlObj = true).
Proof.
  intros Hentry.
  assert (In r allReasons) as Hr.
  { rewrite <- (ruleTable_reasons "" {| hostname := ""; pathname := "" |}).
    apply (in_map reasonOf _ _ (Hentry _ _)). }
  rewrite (analyze_rule_reason _ _ _ Hr).
  split; intros (u & Hu & H); exists u; split; trivial.
  - now apply (rule_pushed_iff _ _ _ (Hentry _ u)) in H.
  - now apply (rule_pushed_iff _ _ _ (Hentry _ u)).
Qed.

(** [in_table]: the goal is the membership of one rule in [ruleTable]. *)
Ltac in_table :=
  unfold ruleTable, rulesBefore, rulesAfter;
  rewrite !in_app_iff; cbn [In]; tauto.

Lemma existsb_false_iff {A : Type} (f : A -> bool) (l : list A) :
  existsb f l = false <-> forall x, In x l -> f x = false.
Proof.
  induction l as [| a l IH]; simpl.
  - tauto.
  - rewrite orb_false_iff, IH. split.
    + intros [Ha Hl] x [<- | Hx]; auto.
    + intros H. split; [apply H; now left | intros x Hx; apply H; now right].
Qed.

(** ** The scheme prefix *)

Lemma normalize_cases (inputUrl : string) :
  (normalize inputUrl = inputUrl
   /\ (Js.startsWith inputUrl "http://" = true
       \/ Js.startsWith inputUrl "https://" = true))
  \/ (normalize inputUrl = ("https://" ++ inputUrl)%string
      /\ Js.startsWith inputUrl "http://" = false
      /\ Js.startsWith inputUrl "https://" = false).
Proof.
  unfold normalize.
  destruct (Js.startsWith inputUrl "http://");
    destruct (Js.startsWith inputUrl "https://"); simpl; tauto.
Qed.

Lemma startsWith_https_prefixed (s : string) :
  Js.startsWith ("https://" ++ s) "https://" = true
  /\ Js.startsWith ("https://" ++ s) "http://" = false.
Proof.
  split.
  - apply startsWith_iff. now exists s.
  - reflexivity.
Qed.

Lemma normalize_http (inputUrl : string) :
  Js.startsWith (normalize inputUrl) "http://"
  = Js.startsWith inputUrl "http://".
Proof.
  destruct (normalize_cases inputUrl) as [[-> _] | (-> & H & _)].
  - reflexivity.
  - rewrite H. apply startsWith_https_prefixed.
Qed.

(** X1: the string that is parsed always starts with [http://] or
    [https://]; normalizing twice is normalizing once; the scorer gives the
    same result on an input and on its normalized form, so an input without
    scheme is scored like the same input with [https://] in front. *)
Theorem normalize_scheme
  (newURL : string -> Completion URL) (inputUrl : string) :
  (Js.startsWith (normalize inputUrl) "http://" = true
   \/ Js.startsWith (normalize inputUrl) "https://" = true)
  /\ normalize (normalize inputUrl) = normalize inputUrl
  /\ analyze newURL (normalize inputUrl) = analyze newURL inputUrl
  /\ (Js.startsWith inputUrl "http://" = false ->
      Js.startsWith inputUrl "https://" = false ->
      analyze newURL ("https://" ++ inputUrl) = analyze newURL inputUrl).
Proof.
  assert (Js.startsWith (normalize inputUrl) "http://" = true
          \/ Js.startsWith (normalize inputUrl) "https://" = true) as Hs.
  { destruct (normalize_cases inputUrl) as [[-> H] | (-> & _)].
    - exact H.
    - right. apply startsWith_https_prefixed. }
  assert (normalize (normalize inputUrl) = normalize inputUrl) as Hi.
  { destruct (normalize_cases (normalize inputUrl))
      as [[H _] | (_ & H1 & H2)]; [exact H |].
    destruct Hs; congruence. }
  split; [exact Hs | split; [exact Hi | split]].
  - unfold analyze. now rewrite Hi.
  - intros H1 H2.
    replace ("https://" ++ inputUrl)%string with (normalize inputUrl).
    + unfold analyze. now rewrite Hi.
    + unfold normalize. now rewrite H1, H2.
Qed.

Lemma normalize_scheme_witness :
  Js.startsWith Scenario.plain "http://" = false
  /\ Js.startsWith Scenario.plain "https://" = false
  /\ analyze UrlModel.parse "https://example.com"
     = analyze UrlModel.parse "example.com".
Proof.
  split; [reflexivity | split; [reflexivity |]].
  apply (normalize_scheme UrlModel.parse Scenario.plain); reflexivity.
Defined.

(** X2: the reason "Not using secure HTTPS connection" is reported exactly
    when the URL parses and the input itself starts with [http://], in
    these very characters; an input without scheme never gets it. *)
Theorem http_reason_iff
  (newURL : string -> Completion URL) (inputUrl : string) :
  In "Not using secure HTTPS connection"%string
     (reasons (analyze newURL inputUrl))
  <-> (exists urlObj, newURL (normalize inputUrl) = Normal urlObj)
      /\ Js.startsWith inputUrl "http://" = true.
Proof.
  rewrite (analyze_fires_iff newURL inputUrl
             (fun n _ => Js.startsWith n "http://") 15)
    by (intros; in_table).
  rewrite normalize_http. split.
  - intros (u & Hu & H). eauto.
  - intros [[u Hu] H]. eauto.
Qed.

(** X3: the reason "Domain contains suspicious keywords" is reported
    exactly when the URL parses, the lowercased host includes a keyword of
    the list and includes none of the allowlisted hosts.  The allowlist is
    a substring test: a host that has an allowlisted host anywhere inside
    it never gets the reason, whatever keywords it contains. *)
Theorem keyword_reason_iff
  (newURL : string -> Completion URL) (inputUrl : string) :
  (In "Domain contains suspicious keywords"%string
      (reasons (analyze newURL inputUrl))
   <-> exists urlObj,
         newURL (normalize inputUrl) = Normal urlObj
         /\ (exists keyword,
               In keyword suspiciousKeywords
               /\ Js.includes (Js.toLowerCase (hostname urlObj)) keyword
                  = true)
         /\ (forall legit,
               In legit legitimateDomains ->
               Js.includes (Js.toLowerCase (hostname urlObj)) legit
               = false))
  /\ (forall urlObj legit front rest,
        newURL (normalize inputUrl) = Normal urlObj ->
        In legit legitimateDomains ->
        Js.toLowerCase (hostname urlObj) = (front ++ legit ++ rest)%string ->
        ~ In "Domain contains suspicious keywords"%string
             (reasons (analyze newURL inputUrl))).
Proof.
  assert (In "Domain contains suspicious keywords"%string
             (reasons (analyze newURL inputUrl))
          <-> exists urlObj,
                newURL (normalize inputUrl) = Normal urlObj
                /\ (exists keyword,
                      In keyword suspiciousKeywords
                      /\ Js.includes (Js.toLowerCase (hostname urlObj))
                           keyword = true)
                /\ (forall legit,
                      In legit legitimateDomains ->
                      Js.includes (Js.toLowerCase (hostname urlObj)) legit
                      = false)) as Hiff.
  { rewrite (analyze_fires_iff newURL inputUrl
               (fun _ u =>
                  Js.some suspiciousKeywords (fun keyword =>
                    Js.includes (Js.toLowerCase (hostname u)) keyword
                    && negb (isLegitimateUse (Js.toLowerCase (hostname u))
                               keyword))) 30)
      by (intros; in_table).
    split; intros (u & Hu & H); exists u; (split; [exact Hu |]).
    - apply existsb_exists in H. destruct H as (k & Hk & H).
      apply andb_true_iff in H. destruct H as [Hin Hlegit].
      apply negb_true_iff in Hlegit.
      split; [now exists k |].
      exact (proj1 (existsb_false_iff _ _) Hlegit).
    - destruct H as [(k & Hk & Hin) Hlegit].
      apply existsb_exists. exists k. split; [exact Hk |].
      rewrite Hin. simpl. apply negb_true_iff.
      now apply existsb_false_iff. }
  split; [exact Hiff |].
  intros u legit front rest Hu Hlegit Hhost Hin.
  apply Hiff in Hin. destruct Hin as (u' & Hu' & _ & Hnone).
  rewrite Hu in Hu'. injection Hu' as <-.
  specialize (Hnone legit Hlegit).
  assert (Js.includes (Js.toLowerCase (hostname u)) legit = true) as Hyes.
  { apply includes_iff. now exists front, rest. }
  congruence.
Qed.

Lemma keyword_reason_iff_witness :
  UrlModel.parse (normalize "https://login.live.com.verify-account.example")
  = Normal {| hostname := "login.live.com.verify-account.example";
              pathname := "/" |}
  /\ ~ In "Domain contains suspicious keywords"%string
          (reasons (analyze UrlModel.parse
                      "https://login.live.com.verify-account.example")).
Proof.
  split; [reflexivity |].
  apply (proj2 (keyword_reason_iff UrlModel.parse
                  "https://login.live.com.verify-account.example")
           {| hostname := "login.live.com.verify-account.example";
              pathname := "/" |}
           "login.live.com"%string ""%string
           ".verify-account.example"%string);
    [reflexivity | simpl; tauto | reflexivity].
Defined.

(** X4: the hyphen rule and the subdomain rule count separators.  The
    reason "Domain has suspicious hyphen pattern" is reported exactly when
    the URL parses and the lowercased host has at least three hyphens; the
    reason "Excessive subdomains detected" exactly when it has at least
    four dots. *)
Theorem separator_reasons_iff
  (newURL : string -> Completion URL) (inputUrl : string) :
  (In "Domain has suspicious hyphen pattern"%string
      (reasons (analyze newURL inputUrl))
   <-> exists urlObj,
         newURL (normalize inputUrl) = Normal urlObj
         /\ (3 <= occurrences "-" (Js.toLowerCase (hostname urlObj)))%nat)
  /\ (In "Excessive subdomains detected"%string
         (reasons (analyze newURL inputUrl))
      <-> exists urlObj,
            newURL (normalize inputUrl) = Normal urlObj
            /\ (4 <= occurrences "." (Js.toLowerCase (hostname urlObj)))%nat).
Proof.
  split.
  - rewrite (analyze_fires_iff newURL inputUrl
               (fun _ u =>
                  Js.includes (Js.toLowerCase (hostname u)) "-"
                  && (3 <? Z.of_nat (List.length
                                       (Js.split (Js.toLowerCase (hostname u))
                                          "-")))) 15)
      by (intros; in_table).
    split; intros (u & Hu & H); exists u; (split; [exact Hu |]);
      rewrite includes_char, split_char_length in *.
    + apply andb_true_iff in H. destruct H as [_ H].
      apply Z.ltb_lt in H. lia.
    + apply andb_true_iff. split; [apply Nat.ltb_lt | apply Z.ltb_lt]; lia.
  - rewrite (analyze_fires_iff newURL inputUrl
               (fun _ u =>
                  4 <? Z.of_nat (List.length
                                   (Js.split (Js.toLowerCase (hostname u))
                                      "."))) 20)
      by (intros; in_table).
    split; intros (u & Hu & H); exists u; (split; [exact Hu |]);
      rewrite split_char_length in *.
    + apply Z.ltb_lt in H. lia.
    + apply Z.ltb_lt. lia.
Qed.

(** ** How many reasons a result has *)

(** [abstract_conditions]: replace the conditions of the rules written out
    in the goal by boolean variables. *)
Ltac abstract_conditions :=
  repeat match goal with
         | |- context [ @pair bool (Z * string) ?b _ ] =>
             tryif is_var b then fail
             else (let x := fresh "b" in generalize b; intros x)
         end.

Lemma weight_lower_bounds (urlToCheck : string) (urlObj : URL) :
  15 * Z.of_nat (List.length (pushed (rules urlToCheck urlObj)))
  <= riskScore (rules urlToCheck urlObj)
  /\ 20 * Z.of_nat (List.length (pushed (rules urlToCheck urlObj))) - 10
     <= riskScore (rules urlToCheck urlObj).
Proof.
  rewrite rules_riskScore_split, rules_pushed_split.
  rewrite !length_app, !length_map.
  generalize (List.length
                (filter (impersonates (Js.toLowerCase (hostname urlObj)))
                        commonBrands)).
  intros k. unfold rulesBefore, rulesAfter. abstract_conditions.
  destruct b, b0, b1, b2, b3, b4, b5;
    cbn [fired filter holds fst snd totalWeight fold_right weightOf
         List.length];
    lia.
Qed.

(** The weight and the reason of each entry of the table. *)
Lemma ruleTable_profile (urlToCheck : string) (urlObj : URL) :
  map (fun e => (weightOf e, reasonOf e)) (ruleTable urlToCheck urlObj)
  = [ (30, "Domain contains suspicious keywords"%string);
      (20, "URL path contains phishing-related terms"%string);
      (25, "Uses URL shortening service"%string);
      (15, "Domain has suspicious hyphen pattern"%string);
      (40, "Potentially impersonating paypal"%string);
      (40, "Potentially impersonating amazon"%string);
      (40, "Potentially impersonating microsoft"%string);
      (40, "Potentially impersonating google"%string);
      (40, "Potentially impersonating apple"%string);
      (40, "Potentially impersonating netflix"%string);
      (35, "Uses IP address instead of domain name"%string);
      (20, "Excessive subdomains detected"%string);
      (15, "Not using secure HTTPS connection"%string) ].
Proof. reflexivity. Qed.

Lemma single_fired (t : list Rule) (r : string) :
  map reasonOf (fired t) = [r] ->
  exists e, In e t /\ reasonOf e = r /\ totalWeight (fired t) = weightOf e.
Proof.
  destruct (fired t) as [| e [| e' l]] eqn:E; simpl; try discriminate.
  intros H. injection H as <-. exists e. repeat split.
  - assert (In e (fired t)) as Hin by (rewrite E; now left).
    unfold fired in Hin. now apply filter_In in Hin.
  - lia.
Qed.

(** X5: a safe result has exactly one reason, and it is one of five
    results: score 0 with the default reason, score 15 with the hyphen or
    the http reason, score 20 with the path or the subdomain reason.  The
    keyword, shortener, brand and IP rules never leave a result safe. *)
Theorem safe_result_shape
  (newURL : string -> Completion URL) (inputUrl : string) :
  status (analyze newURL inputUrl) = safe ->
  In (score (analyze newURL inputUrl), reasons (analyze newURL inputUrl))
     [ (0, [ "No obvious red flags detected"%string ]);
       (15, [ "Domain has suspicious hyphen pattern"%string ]);
       (15, [ "Not using secure HTTPS connection"%string ]);
       (20, [ "URL path contains phishing-related terms"%string ]);
       (20, [ "Excessive subdomains detected"%string ]) ].
Proof.
  destruct (analyze_cases newURL inputUrl) as [(u & _ & E) | (_ & E)];
    rewrite E; [| discriminate].
  set (n := normalize inputUrl).
  rewrite classify_status, classify_score. unfold classify.
  pose proof (weight_lower_bounds n u) as [Hlow _].
  pose proof (rules_weight_bounds n u) as Hup.
  destruct (Z.leb_spec 50 (riskScore (rules n u))); [discriminate |].
  destruct (Z.leb_spec 25 (riskScore (rules n u))); [discriminate |].
  intros _. cbn [reasons].
  destruct (pushed (rules n u)) as [| r [| r' l]] eqn:Hpushed;
    cbn [List.length] in *.
  - simpl. left. f_equal. lia.
  - cbn [Nat.eqb].
    assert (riskScore (rules n u) = totalWeight (fired (ruleTable n u)))
      as Hrs by (now rewrite rules_fired).
    rewrite rules_fired in Hpushed. cbn [pushed] in Hpushed.
    destruct (single_fired _ _ Hpushed) as (e & Hin & Hr & Hw).
    rewrite Hrs, Hw in *.
    apply (in_map (fun e => (weightOf e, reasonOf e))) in Hin.
    rewrite ruleTable_profile, Hr in Hin.
    rewrite Z.min_l by lia.
    cbn [In] in Hin.
    repeat (destruct Hin as [Hin | Hin];
            [injection Hin as Hw' <-; rewrite <- Hw' in *;
             first [lia | simpl; tauto] |]).
    contradiction.
  - lia.
Qed.

Lemma safe_result_shape_witness :
  status (analyze UrlModel.parse "http://example.com") = safe
  /\ In (score (analyze UrlModel.parse "http://example.com"),
         reasons (analyze UrlModel.parse "http://example.com"))
        [ (0, [ "No obvious red flags detected"%string ]);
          (15, [ "Domain has suspicious hyphen pattern"%string ]);
          (15, [ "Not using secure HTTPS connection"%string ]);
          (20, [ "URL path contains phishing-related terms"%string ]);
          (20, [ "Excessive subdomains detected"%string ]) ].
Proof.
  split; [reflexivity |].
  apply (safe_result_shape UrlModel.parse "http://example.com").
  reflexivity.
Defined.

(** X6: a suspicious result has two or three reasons: the summary (or, on
    the parse-failure path, the first diagnostic) and one or two more; three
    rules together always reach 50. *)
Theorem suspicious_reason_count
  (newURL : string -> Completion URL) (inputUrl : string) :
  status (analyze newURL inputUrl) = suspicious ->
  (2 <= List.length (reasons (analyze newURL inputUrl)) <= 3)%nat.
Proof.
  destruct (analyze_cases newURL inputUrl) as [(u & _ & E) | (_ & E)];
    rewrite E; [| simpl; lia].
  set (n := normalize inputUrl).
  rewrite classify_status. unfold classify.
  pose proof (weight_lower_bounds n u) as [_ Hlow].
  pose proof (rules_weight_bounds n u) as Hup.
  destruct (Z.leb_spec 50 (riskScore (rules n u))); [discriminate |].
  destruct (Z.leb_spec 25 (riskScore (rules n u))); [| discriminate].
  intros _. cbn [reasons List.length]. lia.
Qed.

Lemma suspicious_reason_count_witness :
  status (analyze UrlModel.parse Scenario.msonline) = suspicious
  /\ (2 <= List.length (reasons (analyze UrlModel.parse Scenario.msonline))
      <= 3)%nat.
Proof.
  split; [reflexivity |].
  apply (suspicious_reason_count UrlModel.parse Scenario.msonline).
  reflexivity.
Defined.

(** ** The range of the accumulated weight *)

Lemma fired_weight_le (t : list Rule) :
  Forall (fun e => 0 <= weightOf e <= 40) t ->
  totalWeight (fired t) <= totalWeight t.
Proof.
  induction 1 as [| e t He _ IH]; [simpl; lia |].
  unfold fired in *. simpl filter.
  change (totalWeight (e :: t)) with (weightOf e + totalWeight t).
  destruct (holds e); [| lia].
  change (totalWeight (e :: filter holds t))
    with (weightOf e + totalWeight (filter holds t)).
  lia.
Qed.

Lemma fired_weight_divide (t : list Rule) :
  Forall (fun e => (5 | weightOf e)) t -> (5 | totalWeight (fired t)).
Proof.
  induction 1 as [| e t He _ IH]; [exists 0; reflexivity |].
  unfold fired in *. simpl filter. destruct (holds e); [| exact IH].
  change (totalWeight (e :: filter holds t))
    with (weightOf e + totalWeight (filter holds t)).
  now apply Z.divide_add_r.
Qed.

Lemma ruleTable_weights_divide (urlToCheck : string) (urlObj : URL) :
  Forall (fun e => (5 | weightOf e)) (ruleTable urlToCheck urlObj).
Proof.
  apply Forall_forall. intros e He.
  apply (in_map (fun e => (weightOf e, reasonOf e))) in He.
  rewrite ruleTable_profile in He. cbn [In] in He.
  repeat (destruct He as [He | He];
          [injection He as <- _;
           first [now exists 3 | now exists 4 | now exists 5
                 | now exists 6 | now exists 7 | now exists 8] |]).
  contradiction.
Qed.

(** X7: the accumulated weight lies between 0 and 400 and is a multiple
    of 5, and 400 is reached; hence the score is a multiple of 5 for every
    input, and a result has at most fourteen reasons. *)
Theorem score_granularity
  (newURL : string -> Completion URL) (inputUrl : string) :
  (5 | score (analyze newURL inputUrl))
  /\ (List.length (reasons (analyze newURL inputUrl)) <= 14)%nat
  /\ (forall urlToCheck urlObj,
        0 <= riskScore (rules urlToCheck urlObj) <= 400
        /\ (5 | riskScore (rules urlToCheck urlObj)))
  /\ riskScore
       (rules
          "http://1.2.3.4.paypal-amazon-microsoft-google-apple-netflix.bit.ly/login"
          {| hostname :=
               "1.2.3.4.paypal-amazon-microsoft-google-apple-netflix.bit.ly";
             pathname := "/login" |})
     = 400.
Proof.
  assert (forall n u,
             0 <= riskScore (rules n u) <= 400
             /\ (5 | riskScore (rules n u))) as Hrange.
  { intros n u. split.
    - split; [apply rules_weight_bounds |].
      rewrite rules_fired. cbn [riskScore].
      apply (Z.le_trans _ (totalWeight (ruleTable n u)));
        [apply fired_weight_le, ruleTable_weights | reflexivity].
    - rewrite rules_fired. cbn [riskScore].
      apply fired_weight_divide, ruleTable_weights_divide. }
  split; [| split; [| split; [exact Hrange | reflexivity]]].
  - destruct (analyze_cases newURL inputUrl) as [(u & _ & E) | (_ & E)];
      rewrite E; [| now exists 6].
    rewrite classify_score.
    destruct (Z.min_spec (riskScore (rules (normalize inputUrl) u)) 100)
      as [[_ ->] | [_ ->]]; [apply Hrange | now exists 20].
  - destruct (analyze_cases newURL inputUrl) as [(u & _ & E) | (_ & E)];
      rewrite E; [| simpl; lia].
    assert (List.length (pushed (rules (normalize inputUrl) u)) <= 13)%nat
      as Hlen.
    { rewrite rules_fired. cbn [pushed]. rewrite length_map. unfold fired.
      apply (Nat.le_trans _ (List.length
                               (ruleTable (normalize inputUrl) u)));
        [apply filter_length_le | reflexivity]. }
    unfold classify.
    destruct (50 <=? riskScore (rules (normalize inputUrl) u));
      [simpl; lia |].
    destruct (25 <=? riskScore (rules (normalize inputUrl) u));
      [simpl; lia |].
    cbn [reasons].
    destruct (pushed (rules (normalize inputUrl) u)); simpl in *; lia.
Qed.

(** ** The order of the reasons *)

Lemma fired_reasons_mask (t : list Rule) :
  map reasonOf (fired t)
  = map snd (filter fst (combine (map holds t) (map reasonOf t))).
Proof.
  unfold fired. induction t as [| e t IH]; [reflexivity |].
  simpl. destruct (holds e); simpl; now rewrite IH.
Qed.

(** X8: when the URL parses, the reasons are a selection from the thirteen
    rule reasons, kept in the order of the rules; a dangerous or suspicious
    result has its summary in front of the selection, and a safe result is
    the selection itself, or the default reason when nothing is selected. *)
Theorem reasons_in_rule_order
  (newURL : string -> Completion URL) (inputUrl : string) (urlObj : URL) :
  newURL (normalize inputUrl) = Normal urlObj ->
  exists mask,
    List.length mask = 13%nat
    /\ reasons (analyze newURL inputUrl)
       = let selected :=
           map snd (filter fst (combine mask allReasons)) in
         match status (analyze newURL inputUrl) with
         | dangerous => "High risk of phishing"%string :: selected
         | suspicious => "Potential security concerns"%string :: selected
         | safe =>
             match selected with
             | [] => [ "No obvious red flags detected"%string ]
             | _ => selected
             end
         end.
Proof.
  intros Hu. rewrite (analyze_parsed _ _ _ Hu).
  set (n := normalize inputUrl).
  exists (map holds (ruleTable n urlObj)). split; [reflexivity |].
  cbv zeta. rewrite <- (ruleTable_reasons n urlObj), <- fired_reasons_mask.
  assert (pushed (rules n urlObj)
          = map reasonOf (fired (ruleTable n urlObj))) as <-
      by (now rewrite rules_fired).
  rewrite classify_status. unfold classify.
  destruct (50 <=? riskScore (rules n urlObj)); [reflexivity |].
  destruct (25 <=? riskScore (rules n urlObj)); [reflexivity |].
  cbn [reasons]. now destruct (pushed (rules n urlObj)).
Qed.

Lemma reasons_in_rule_order_witness :
  UrlModel.parse (normalize Scenario.badsite) = Normal Scenario.badsite_url
  /\ exists mask,
       List.length mask = 13%nat
       /\ reasons (analyze UrlModel.parse Scenario.badsite)
          = "High risk of phishing"%string
            :: map snd (filter fst (combine mask allReasons)).
Proof.
  split; [reflexivity |].
  destruct (reasons_in_rule_order UrlModel.parse Scenario.badsite
              Scenario.badsite_url eq_refl) as (mask & Hlen & Hreasons).
  exists mask. split; [exact Hlen | exact Hreasons].
Defined.

(** * The voice assistant *)

Lemma append_assoc_string (a b c : string) :
  ((a ++ b) ++ c = a ++ (b ++ c))%string.
Proof. induction a as [| x a IH]; simpl; [reflexivity | now rewrite IH]. Qed.

(** A string that includes [long] includes what [long] includes. *)
Lemma includes_trans (s long short : string) :
  Js.includes long short = true ->
  Js.includes s long = true -> Js.includes s short = true.
Proof.
  rewrite !includes_iff.
  intros (a & b & ->) (front & rest & ->).
  exists (front ++ a)%string, (b ++ rest)%string.
  now rewrite !append_assoc_string.
Qed.

Lemma excludes_longer (s long short : string) :
  Js.includes long short = true ->
  Js.includes s short = false -> Js.includes s long = false.
Proof.
  intros Hlong Hshort.
  destruct (Js.includes s long) eqn:E; [| reflexivity].
  now rewrite (includes_trans s long short Hlong E) in Hshort.
Qed.

Section FindBestMatchFacts.

Variable toLowerCase : string -> string.
Variable trim : string -> string.

(** X9: the assistant answers with the help message exactly when the
    normalized question includes none of the words phish, safe, protect,
    email, red flag, verify and check; every key of the FAQ contains one
    of them, and the test for phishing adds nothing to the test for
    phish. *)
Theorem findBestMatch_help_iff (question : string) :
  VoiceBot.findBestMatch toLowerCase trim question = VoiceBot.helpMessage
  <-> forall word,
        In word [ "phish"; "safe"; "protect"; "email"; "red flag";
                  "verify"; "check" ]%string ->
        Js.includes (trim (toLowerCase question)) word = false.
Proof.
  unfold VoiceBot.findBestMatch.
  set (nq := trim (toLowerCase question)).
  split.
  - unfold VoiceBot.phishingFAQ. cbn [VoiceBot.firstIncluded].
    destruct (Js.includes nq "what is phishing"); [discriminate |].
    destruct (Js.includes nq "how can i stay safe"); [discriminate |].
    destruct (Js.includes nq "tell me about email red flags");
      [discriminate |].
    destruct (Js.includes nq "what are common phishing tactics");
      [discriminate |].
    destruct (Js.includes nq "how to verify emails"); [discriminate |].
    unfold VoiceBot.keywordAnswer.
    destruct (Js.includes nq "phishing"); [discriminate |].
    destruct (Js.includes nq "phish") eqn:W1; [discriminate |].
    destruct (Js.includes nq "safe") eqn:W2; [discriminate |].
    destruct (Js.includes nq "protect") eqn:W3; [discriminate |].
    destruct (Js.includes nq "email") eqn:W4; [discriminate |].
    destruct (Js.includes nq "red flag") eqn:W5; [discriminate |].
    destruct (Js.includes nq "verify") eqn:W6; [discriminate |].
    destruct (Js.includes nq "check") eqn:W7; [discriminate |].
    intros _ word Hword. cbn [In] in Hword.
    repeat (destruct Hword as [<- | Hword]; [assumption |]).
    contradiction.
  - intros Hnone.
    assert (forall long short,
               In short [ "phish"; "safe"; "protect"; "email"; "red flag";
                          "verify"; "check" ]%string ->
               Js.includes long short = true ->
               Js.includes nq long = false) as Hlong.
    { intros long short Hin Hinc.
      apply (excludes_longer nq long short Hinc). now apply Hnone. }
    unfold VoiceBot.phishingFAQ. cbn [VoiceBot.firstIncluded].
    rewrite (Hlong "what is phishing" "phish")%string
      by (cbn [In]; tauto || reflexivity).
    rewrite (Hlong "how can i stay safe" "safe")%string
      by (cbn [In]; tauto || reflexivity).
    rewrite (Hlong "tell me about email red flags" "email")%string
      by (cbn [In]; tauto || reflexivity).
    rewrite (Hlong "what are common phishing tactics" "phish")%string
      by (cbn [In]; tauto || reflexivity).
    rewrite (Hlong "how to verify emails" "verify")%string
      by (cbn [In]; tauto || reflexivity).
    unfold VoiceBot.keywordAnswer.
    rewrite (Hlong "phishing" "phish")%string
      by (cbn [In]; tauto || reflexivity).
    rewrite !Hnone by (cbn [In]; tauto).
    reflexivity.
Qed.

(** X10: asking a key of the FAQ, once lowercased and trimmed, gives the
    answer stored under that key. *)
Theorem findBestMatch_key (question key value : string) :
  In (key, value) VoiceBot.phishingFAQ ->
  trim (toLowerCase question) = key ->
  VoiceBot.findBestMatch toLowerCase trim question = value.
Proof.
  unfold VoiceBot.findBestMatch. intros Hin ->.
  unfold VoiceBot.phishingFAQ in Hin. cbn [In] in Hin.
  repeat (destruct Hin as [Hin | Hin];
          [injection Hin as <- <-; vm_compute; reflexivity |]).
  contradiction.
Qed.

(** X11: the answer on common phishing tactics is given only for its full
    key: exactly when the normalized question includes
    [what are common phishing tactics] and none of the three keys before
    it.  A question that merely mentions phishing tactics gets another
    answer. *)
Theorem findBestMatch_tactics_iff (question : string) :
  VoiceBot.findBestMatch toLowerCase trim question
  = VoiceBot.commonTactics
  <-> Js.includes (trim (toLowerCase question))
        "what are common phishing tactics" = true
      /\ Js.includes (trim (toLowerCase question)) "what is phishing" = false
      /\ Js.includes (trim (toLowerCase question)) "how can i stay safe"
         = false
      /\ Js.includes (trim (toLowerCase question))
           "tell me about email red flags" = false.
Proof.
  unfold VoiceBot.findBestMatch.
  set (nq := trim (toLowerCase question)).
  unfold VoiceBot.phishingFAQ. cbn [VoiceBot.firstIncluded].
  destruct (Js.includes nq "what is phishing");
    [split; [discriminate | intros (_ & H & _); discriminate] |].
  destruct (Js.includes nq "how can i stay safe");
    [split; [discriminate | intros (_ & _ & H & _); discriminate] |].
  destruct (Js.includes nq "tell me about email red flags");
    [split; [discriminate | intros (_ & _ & _ & H); discriminate] |].
  destruct (Js.includes nq "what are common phishing tactics"); [tauto |].
  split; [| intros (H & _); discriminate].
  destruct (Js.includes nq "how to verify emails"); [discriminate |].
  unfold VoiceBot.keywordAnswer.
  destruct (Js.includes nq "phishing" || Js.includes nq "phish");
    [discriminate |].
  destruct (Js.includes nq "safe" || Js.includes nq "protect");
    [discriminate |].
  destruct (Js.includes nq "email" || Js.includes nq "red flag");
    [discriminate |].
  destruct (Js.includes nq "verify" || Js.includes nq "check");
    discriminate.
Qed.

End FindBestMatchFacts.

Lemma findBestMatch_key_witness :
  In ("how to verify emails"%string, VoiceBot.howToVerifyEmails)
     VoiceBot.phishingFAQ
  /\ AsciiText.trim (Js.toLowerCase "  How to Verify Emails ")
     = "how to verify emails"%string
  /\ VoiceBot.findBestMatch Js.toLowerCase AsciiText.trim
       "  How to Verify Emails "
     = VoiceBot.howToVerifyEmails.
Proof.
  split; [simpl; tauto | split; [reflexivity |]].
  apply (findBestMatch_key Js.toLowerCase AsciiText.trim
           "  How to Verify Emails " "how to verify emails").
  - simpl. tauto.
  - reflexivity.
Defined.

(** * The handler [checkUrl] *)

(** X12: the second half of [checkUrl] always completes: whatever text it
    was started with and whatever the state it resumes in, it stores the
    result of the scorer on that text, untrimmed, clears the busy flag and
    raises no toast; its [catch] branch, with the toast "Failed to analyze
    URL", is never taken. *)
Theorem checkUrl_resume_stores_analysis
  (newURL : string -> Completion URL) (text : string) (c : Component) :
  checkUrl_resume newURL text c
  = (Normal tt,
     {| url := url c;
        result := Some (analyze newURL text);
        isChecking := false;
        toasts := toasts c |}).
Proof.
  unfold checkUrl_resume, try_catch_finally, seq, call, update.
  rewrite analyzeUrl_analyze. reflexivity.
Qed.

(** X13: a run of [checkUrl] never throws.  When the text of the field is
    empty once trimmed, it only raises the toast "URL Required": the
    displayed result and the busy flag stay as they were.  Otherwise it
    ends with the result of the scorer on the text as typed, the busy flag
    cleared and no toast. *)
Theorem checkUrl_run
  (newURL : string -> Completion URL) (trim : string -> string)
  (c : Component) :
  checkUrl newURL trim c
  = (Normal tt,
     if (String.length (trim (url c)) =? 0)%nat
     then {| url := url c;
             result := result c;
             isChecking := isChecking c;
             toasts := toasts c ++ [ urlRequired ] |}
     else {| url := url c;
             result := Some (analyze newURL (url c));
             isChecking := false;
             toasts := toasts c |}).
Proof.
  unfold checkUrl, checkUrl_start.
  destruct (String.length (trim (url c)) =? 0)%nat.
  - reflexivity.
  - unfold seq, update, call.
    unfold checkUrl_resume, try_catch_finally, seq, call, update.
    rewrite analyzeUrl_analyze. reflexivity.
Qed.

(** * Brands and schemes *)

Lemma fired_weight_ge (t : list Rule) (e : Rule) :
  Forall (fun e => 0 <= weightOf e <= 40) t ->
  In e (fired t) -> weightOf e <= totalWeight (fired t).
Proof.
  intros Hw. pose proof fired_weight_bounds as Hb. unfold fired in *.
  induction Hw as [| x t Hx Hw IH]; simpl; [tauto |].
  specialize (Hb t Hw).
  destruct (holds x).
  - change (totalWeight (x :: filter holds t))
      with (weightOf x + totalWeight (filter holds t)).
    intros [<- | Hin]; [lia | specialize (IH Hin); lia].
  - exact IH.
Qed.

(** X15: the sites of the brands themselves are not scored safe.  When the
    URL parses and the lowercased host ends with paypal.com, amazon.com,
    microsoft.com, google.com or netflix.com and includes no allowlisted
    host, the brand rule does not fire for that brand, but the host-keyword
    rule does, because the brand is also a keyword: the score is at least
    30 and the status is not safe. *)
Theorem brand_sites_flagged
  (newURL : string -> Completion URL) (inputUrl : string) (urlObj : URL)
  (brand front : string) :
  newURL (normalize inputUrl) = Normal urlObj ->
  In brand [ "paypal"; "amazon"; "microsoft"; "google"; "netflix" ]%string ->
  Js.toLowerCase (hostname urlObj) = (front ++ brand ++ ".com")%string ->
  (forall legit,
      In legit legitimateDomains ->
      Js.includes (Js.toLowerCase (hostname urlObj)) legit = false) ->
  In "Domain contains suspicious keywords"%string
     (reasons (analyze newURL inputUrl))
  /\ ~ In ("Potentially impersonating " ++ brand)%string
          (reasons (analyze newURL inputUrl))
  /\ 30 <= score (analyze newURL inputUrl)
  /\ status (analyze newURL inputUrl) <> safe.
Proof.
  intros Hu Hbrand Hhost Hlegit.
  set (n := normalize inputUrl) in *.
  set (domain := Js.toLowerCase (hostname urlObj)) in *.
  assert (Js.includes domain brand = true) as Hinc
      by (apply includes_iff; now exists front, ".com"%string).
  assert (Js.endsWith domain (brand ++ ".com") = true) as Hends
      by (apply endsWith_iff; now exists front).
  assert (In brand suspiciousKeywords /\ In brand commonBrands)
    as [Hkw Hcb].
  { cbn [In] in Hbrand.
    repeat (destruct Hbrand as [<- | Hbrand]; [simpl; tauto |]).
    contradiction. }
  set (keywordRule :=
         (Js.some suspiciousKeywords (fun keyword =>
            Js.includes domain keyword
            && negb (isLegitimateUse domain keyword)),
          (30, "Domain contains suspicious keywords"%string)) : Rule).
  assert (In keywordRule (ruleTable n urlObj)) as Hentry
      by (subst keywordRule domain; in_table).
  assert (holds keywordRule = true) as Hholds.
  { apply existsb_exists. exists brand. split; [exact Hkw |].
    rewrite Hinc. simpl. apply negb_true_iff.
    now apply existsb_false_iff. }
  assert (In keywordRule (fired (ruleTable n urlObj))) as Hfired
      by (now apply filter_In).
  assert (30 <= riskScore (rules n urlObj)) as Hweight.
  { rewrite rules_fired. cbn [riskScore].
    apply (fired_weight_ge _ _ (ruleTable_weights n urlObj) Hfired). }
  rewrite (analyze_parsed _ _ _ Hu). fold n.
  repeat split.
  - apply classify_rule_reason; [simpl; tauto |].
    now apply (rule_pushed_iff n urlObj keywordRule Hentry).
  - intros Hin. apply classify_rule_reason in Hin.
    + apply (impersonation_pushed n urlObj brand) in Hin.
      destruct Hin as [_ Himp]. apply impersonates_true in Himp.
      fold domain in Himp. destruct Himp as (_ & Hcom & _). congruence.
    + rewrite <- (ruleTable_reasons n urlObj). unfold ruleTable.
      rewrite !map_app, !in_app_iff. right. left.
      rewrite brands_reasons. now apply (in_map impersonation).
  - rewrite classify_score. lia.
  - rewrite classify_status.
    destruct (Z.leb_spec 50 (riskScore (rules n urlObj)));
      [discriminate |].
    destruct (Z.leb_spec 25 (riskScore (rules n urlObj)));
      [discriminate | lia].
Qed.

Lemma brand_sites_flagged_witness :
  UrlModel.parse (normalize "https://www.netflix.com")
  = Normal {| hostname := "www.netflix.com"; pathname := "/" |}
  /\ status (analyze UrlModel.parse "https://www.netflix.com") <> safe.
Proof.
  split; [reflexivity |].
  apply (brand_sites_flagged UrlModel.parse "https://www.netflix.com"
           {| hostname := "www.netflix.com"; pathname := "/" |}
           "netflix"%string "www."%string).
  - reflexivity.
  - simpl. tauto.
  - reflexivity.
  - intros legit Hlegit. simpl in Hlegit.
    repeat (destruct Hlegit as [<- | Hlegit]; [reflexivity |]).
    contradiction.
Defined.

(** X16: the scheme only matters through the http rule.  For one parsed
    URL, a string to check that starts with [http://] accumulates exactly
    15 more than one that does not, and pushes the same reasons followed by
    "Not using secure HTTPS connection". *)
Theorem http_adds_15 (plainUrl secureUrl : string) (urlObj : URL) :
  Js.startsWith plainUrl "http://" = true ->
  Js.startsWith secureUrl "http://" = false ->
  riskScore (rules plainUrl urlObj) = riskScore (rules secureUrl urlObj) + 15
  /\ pushed (rules plainUrl urlObj)
     = pushed (rules secureUrl urlObj)
       ++ [ "Not using secure HTTPS connection"%string ].
Proof.
  intros Hplain Hsecure. unfold rules. rewrite Hplain, Hsecure.
  split; reflexivity.
Qed.

Lemma http_adds_15_witness :
  riskScore (rules "http://example.com/login" 
               {| hostname := "example.com"; pathname := "/login" |})
  = riskScore (rules "https://example.com/login"
                 {| hostname := "example.com"; pathname := "/login" |}) + 15.
Proof.
  apply (http_adds_15 "http://example.com/login" "https://example.com/login");
    reflexivity.
Defined.
